(** * foggybot: a verification development

    The program under study is [foggybot.py]: a weather.gov client
    ([WeatherGov.get_weather_data] and its two unit converters) and a
    script body that composes a prompt, calls a text-generation model,
    pulls an HTML colour code out of the generated text and writes one
    JSON file.

    The development is a shallow embedding.  Python values are a small
    inductive type, exceptions are an error monad, the network and the
    generation service are oracles, and the file system is a piece of
    explicit state. *)

From Stdlib Require Import String Ascii List Bool Arith NArith ZArith Lia.
From Stdlib Require Import Floats QArith Qabs.
Close Scope Q_scope.
Import ListNotations.

(** ** Python [str]

    A [str] is a sequence of code points.  The model keeps the code
    points 0..255, written as [ascii]; the character classes below are
    those of CPython on that range. *)

Definition str := list ascii.

(** String literals of the source. *)
Definition lit (s : string) : str := list_ascii_of_string s.

Definition in_range (lo hi : N) (c : ascii) : bool :=
  ((lo <=? N_of_ascii c) && (N_of_ascii c <=? hi))%N.

(** The class [[0-9a-fA-F]] of the colour pattern. *)
Definition is_hex (c : ascii) : bool :=
  in_range 48 57 c || in_range 97 102 c || in_range 65 70 c.

(** [\w] of a [str] pattern: alphanumeric code points and the underscore.
    Above 127 these are the letters and numeric signs of Latin-1. *)
Definition is_word (c : ascii) : bool :=
  in_range 48 57 c || in_range 97 122 c || in_range 65 90 c
  || in_range 95 95 c
  || in_range 170 170 c || in_range 178 179 c || in_range 181 181 c
  || in_range 185 186 c || in_range 188 190 c
  || in_range 192 214 c || in_range 216 246 c || in_range 248 255 c.

(** The characters [str.strip()] removes when called without argument. *)
Definition is_space (c : ascii) : bool :=
  in_range 9 13 c || in_range 28 32 c || in_range 133 133 c
  || in_range 160 160 c.

Fixpoint starts_with (p s : str) : bool :=
  match p, s with
  | [], _ => true
  | _ :: _, [] => false
  | a :: p', b :: s' => Ascii.eqb a b && starts_with p' s'
  end.

Fixpoint str_eqb (s t : str) : bool :=
  match s, t with
  | [], [] => true
  | a :: s', b :: t' => Ascii.eqb a b && str_eqb s' t'
  | _, _ => false
  end.

(** [old in s] *)
Fixpoint contains (old s : str) : bool :=
  starts_with old s ||
  match s with
  | [] => false
  | _ :: t => contains old t
  end.

(** [s.find(old)], with [None] for Python's -1. *)
Fixpoint find_from (i : nat) (old s : str) : option nat :=
  if starts_with old s then Some i
  else match s with
       | [] => None
       | _ :: t => find_from (S i) old t
       end.

Definition find (old s : str) : option nat := find_from 0 old s.

(** [s.replace(old, new)]: one scan from the left; at an occurrence of
    [old] the scan emits [new] and resumes after the occurrence, so the
    occurrences replaced do not overlap.  [fuel] bounds the number of
    steps; [length s] is enough. *)
Fixpoint replace_scan (fuel : nat) (old new s : str) : str :=
  match fuel with
  | 0 => s
  | S fuel' =>
      match s with
      | [] => []
      | c :: t =>
          if starts_with old s
          then new ++ replace_scan fuel' old new (skipn (length old) s)
          else c :: replace_scan fuel' old new t
      end
  end.

Definition replace (s old new : str) : str :=
  match old with
  | [] => new ++ flat_map (fun c => c :: new) s
  | _ :: _ => replace_scan (length s) old new s
  end.

Fixpoint lstrip (s : str) : str :=
  match s with
  | [] => []
  | c :: t => if is_space c then lstrip t else s
  end.

Definition rstrip (s : str) : str := rev (lstrip (rev s)).

(** [s.strip()] *)
Definition strip (s : str) : str := rstrip (lstrip s).

(** ** The colour pattern [#(?:[0-9a-fA-F]{3}){1,2}\b] *)

(** One repetition of the group [[0-9a-fA-F]{3}] at the head of [s]: the
    last character consumed and what follows. *)
Definition hex3 (s : str) : option (ascii * str) :=
  match s with
  | a :: b :: c :: rest =>
      if is_hex a && is_hex b && is_hex c then Some (c, rest) else None
  | _ => None
  end.

Definition opt_word (o : option ascii) : bool :=
  match o with
  | Some c => is_word c
  | None => false
  end.

(** [\b] between the character [prev] and the text [rest]. *)
Definition word_boundary (prev : option ascii) (rest : str) : bool :=
  xorb (opt_word prev) (opt_word (hd_error rest)).

(** The pattern anchored at the head of [s]; the result is the length of
    the match.  The quantifier [{1,2}] is greedy: two groups are tried
    first, and one group when the boundary fails after two, or when
    there is no second group. *)
Definition match_here (s : str) : option nat :=
  match s with
  | [] => None
  | c :: t =>
      if Ascii.eqb c "#" then
        match hex3 t with
        | None => None
        | Some (d3, t3) =>
            let one := if word_boundary (Some d3) t3 then Some 4 else None in
            match hex3 t3 with
            | Some (d6, t6) =>
                if word_boundary (Some d6) t6 then Some 7 else one
            | None => one
            end
        end
      else None
  end.

(** [re.search]: the leftmost position with a match, and [group(0)]. *)
Fixpoint search_from (i : nat) (s : str) : option (nat * str) :=
  match match_here s with
  | Some n => Some (i, firstn n s)
  | None =>
      match s with
      | [] => None
      | _ :: t => search_from (S i) t
      end
  end.

Definition re_search (s : str) : option (nat * str) := search_from 0 s.

(** ** The result extractor (the script body, after the model call) *)

(** Truth value of [color_code] in [if color_code:]. *)
Definition truthy (o : option str) : bool :=
  match o with
  | Some (_ :: _) => true
  | _ => false
  end.

(** Returns the pair of [response] after [strip] and [color_code]. *)
Definition extract (response : str) : str * option str :=
  let color_code_match := re_search response in
  let color_code := option_map snd color_code_match in
  let response :=
    match color_code with
    | Some c => if truthy color_code then replace response c [] else response
    | None => response
    end in
  (strip response, color_code).

(** ** Python values and exceptions *)

Set Warnings "-register-all".

(** The values [json()] can return, which are also the values the
    client handles: [None], [bool], [int], [float], [str], [list] and
    [dict] with [str] keys. *)
Inductive pyval : Type :=
| VNone
| VBool (b : bool)
| VInt (z : Z)
| VFloat (f : float)
| VStr (s : str)
| VList (l : list pyval)
| VDict (d : list (str * pyval)).

(** The exception classes a run can meet.  [RequestError] is what
    [httpx.get] raises when the transport fails, [HTTPStatusError] what
    [raise_for_status] raises, [ModelError] any failure of the
    generation service, [OSError] a failure of the file system. *)
Inductive exn : Type :=
| RequestError
| HTTPStatusError
| JSONDecodeError
| KeyError
| IndexError
| TypeError
| OverflowError
| ZeroDivisionError
| AttributeError
| ModelError
| OSError.

Inductive result (A : Type) : Type :=
| Return (a : A)
| Raise (e : exn).

Arguments Return {A} a.
Arguments Raise {A} e.

Definition bind {A B : Type} (m : result A) (k : A -> result B) : result B :=
  match m with
  | Return a => k a
  | Raise e => Raise e
  end.

Notation "x <- m ;; k" := (bind m (fun x => k))
  (at level 61, m at next level, right associativity).

(** *** Arithmetic: [int], [float], and [bool] as an [int] *)

Inductive num : Type :=
| NInt (z : Z)
| NFloat (f : float).

Definition as_num (v : pyval) : option num :=
  match v with
  | VBool b => Some (NInt (if b then 1 else 0))
  | VInt z => Some (NInt z)
  | VFloat f => Some (NFloat f)
  | _ => None
  end.

(** [float(z)]: the nearest binary64 value, ties to even. *)
Definition float_of_int (z : Z) : result float :=
  let f := SF2Prim (SpecFloat.binary_normalize prec emax z 0 false) in
  if PrimFloat.is_infinity f then Raise OverflowError else Return f.

Definition to_float (n : num) : result float :=
  match n with
  | NInt z => float_of_int z
  | NFloat f => Return f
  end.

(** [a / b] on two [int]: the quotient rounded once to binary64.  The
    quotient of the magnitudes is taken with at least 56 bits and a
    sticky last bit, so rounding it is rounding the exact quotient. *)
Definition int_true_divide (a b : Z) : result float :=
  if (b =? 0)%Z then Raise ZeroDivisionError
  else
    let neg := xorb (a <? 0)%Z (b <? 0)%Z in
    let n := Z.abs a in
    let d := Z.abs b in
    let k := Z.max 0 (Z.log2 d + 56 - Z.log2 n) in
    let q := (n * 2 ^ k / d)%Z in
    let r := ((n * 2 ^ k) mod d)%Z in
    let m := (2 * q + (if r =? 0 then 0 else 1))%Z in
    let f := SF2Prim (SpecFloat.binary_normalize prec emax
                        (if neg then - m else m)%Z (- k - 1) neg) in
    if PrimFloat.is_infinity f then Raise OverflowError else Return f.

(** [s * n] on a sequence. *)
Definition repeat_seq {A : Type} (l : list A) (n : Z) : list A :=
  concat (repeat l (Z.to_nat n)).

Definition py_mul (a b : pyval) : result pyval :=
  match as_num a, as_num b with
  | Some (NInt x), Some (NInt y) => Return (VInt (x * y))
  | Some x, Some y =>
      fx <- to_float x ;; fy <- to_float y ;;
      Return (VFloat (PrimFloat.mul fx fy))
  | None, Some (NInt n) =>
      match a with
      | VStr s => Return (VStr (repeat_seq s n))
      | VList l => Return (VList (repeat_seq l n))
      | _ => Raise TypeError
      end
  | Some (NInt n), None =>
      match b with
      | VStr s => Return (VStr (repeat_seq s n))
      | VList l => Return (VList (repeat_seq l n))
      | _ => Raise TypeError
      end
  | _, _ => Raise TypeError
  end.

Definition py_truediv (a b : pyval) : result pyval :=
  match as_num a, as_num b with
  | Some (NInt x), Some (NInt y) =>
      f <- int_true_divide x y ;; Return (VFloat f)
  | Some x, Some y =>
      fx <- to_float x ;; fy <- to_float y ;;
      if PrimFloat.eqb fy 0 then Raise ZeroDivisionError
      else Return (VFloat (PrimFloat.div fx fy))
  | _, _ => Raise TypeError
  end.

Definition py_add (a b : pyval) : result pyval :=
  match as_num a, as_num b with
  | Some (NInt x), Some (NInt y) => Return (VInt (x + y))
  | Some x, Some y =>
      fx <- to_float x ;; fy <- to_float y ;;
      Return (VFloat (PrimFloat.add fx fy))
  | None, None =>
      match a, b with
      | VStr s, VStr t => Return (VStr (s ++ t))
      | VList l, VList m => Return (VList (l ++ m))
      | _, _ => Raise TypeError
      end
  | _, _ => Raise TypeError
  end.

(** *** Subscripts *)

(** A [dict] is kept as the list of its entries; its keys are distinct. *)

Fixpoint lookup (k : str) (d : list (str * pyval)) : option pyval :=
  match d with
  | [] => None
  | (k', v) :: d' => if str_eqb k k' then Some v else lookup k d'
  end.

(** [v[k]] with a [str] key. *)
Definition getitem (v : pyval) (k : string) : result pyval :=
  match v with
  | VDict d =>
      match lookup (lit k) d with
      | Some x => Return x
      | None => Raise KeyError
      end
  | _ => Raise TypeError
  end.

(** [v[0]].  The keys of a decoded JSON object are [str], so [0] is
    never one of them. *)
Definition getitem0 (v : pyval) : result pyval :=
  match v with
  | VList (x :: _) => Return x
  | VList [] => Raise IndexError
  | VStr (c :: _) => Return (VStr [c])
  | VStr [] => Raise IndexError
  | VDict _ => Raise KeyError
  | _ => Raise TypeError
  end.

(** [v[:2]].  On a [dict] the slice is not hashable (Python up to 3.11). *)
Definition slice2 (v : pyval) : result pyval :=
  match v with
  | VList l => Return (VList (firstn 2 l))
  | VStr s => Return (VStr (firstn 2 s))
  | _ => Raise TypeError
  end.

(** ** The unit converters of [WeatherGov] *)

Set Warnings "-inexact-float".

Definition _celsius_to_fahrenheit (celsius : pyval) : result pyval :=
  match celsius with
  | VNone => Return VNone
  | _ =>
      a <- py_mul celsius (VInt 9) ;;
      b <- py_truediv a (VInt 5) ;;
      py_add b (VInt 32)
  end.

Definition _ms_to_mph (meters_per_second : pyval) : result pyval :=
  match meters_per_second with
  | VNone => Return VNone
  | _ => py_mul meters_per_second (VFloat 2.237)
  end.

Definition LAT : float := 42.287.
Definition LON : float := (-71.133).

Set Warnings "inexact-float".

(** ** The weather.gov client *)

Record Location : Type := {
  name : pyval;
  state : pyval;
  latitude : float;
  longitude : float
}.

Record CurrentConditions : Type := {
  timestamp : pyval;
  temperature_f : pyval;
  temperature_c : pyval;
  humidity : pyval;
  wind_speed_mph : pyval;
  wind_direction : pyval;
  description : pyval
}.

(** The dictionary [weather_data] that [get_weather_data] builds. *)
Record WeatherSnapshot : Type := {
  location : Location;
  current_conditions : CurrentConditions;
  forecast : pyval
}.

(** What the server sent back: the status line and the body read as
    JSON, [None] when the body is not JSON.  A body that is not text in
    UTF-8 ([UnicodeDecodeError]) or is nested too deep
    ([RecursionError]) is outside the model. *)
Record response : Type := {
  status_code : Z;
  json_body : option pyval
}.

Inductive get_outcome : Type :=
| ConnectionFailed
| Responded (r : response).

(** The network as seen by one run: the answer to the [n]-th request of
    the run, sent to a given URL.  [ConnectionFailed] stands for every
    failure below HTTP (no route, time out, a URL without scheme): the
    errors [httpx] raises for a request.  An address that [httpx]
    refuses to parse ([InvalidURL]) is outside the model.  Requests are
    not retried, and a run makes at most four. *)
Definition network : Type := nat -> str -> get_outcome.

(** [response.raise_for_status()]: every status outside 2xx is an
    error. *)
Definition raise_for_status (r : response) : result unit :=
  if ((200 <=? status_code r) && (status_code r <? 300))%Z then Return tt
  else Raise HTTPStatusError.

(** [response.json()] *)
Definition json (r : response) : result pyval :=
  match json_body r with
  | Some v => Return v
  | None => Raise JSONDecodeError
  end.

Definition base_url : str := lit "https://api.weather.gov".

(** The entry ["location"] of [weather_data]. *)
Definition format_location (point_data : pyval) (latitude longitude : float)
  : result Location :=
  p <- getitem point_data "properties" ;;
  r <- getitem p "relativeLocation" ;;
  rp <- getitem r "properties" ;;
  city <- getitem rp "city" ;;
  p <- getitem point_data "properties" ;;
  r <- getitem p "relativeLocation" ;;
  rp <- getitem r "properties" ;;
  st <- getitem rp "state" ;;
  Return {| name := city; state := st;
            latitude := latitude; longitude := longitude |}.

(** The entry ["current_conditions"] of [weather_data]. *)
Definition format_current_conditions (observation_data : pyval)
  : result CurrentConditions :=
  o <- getitem observation_data "properties" ;;
  ts <- getitem o "timestamp" ;;
  o <- getitem observation_data "properties" ;;
  t <- getitem o "temperature" ;;
  tv <- getitem t "value" ;;
  tf <- _celsius_to_fahrenheit tv ;;
  o <- getitem observation_data "properties" ;;
  t <- getitem o "temperature" ;;
  tc <- getitem t "value" ;;
  o <- getitem observation_data "properties" ;;
  h <- getitem o "relativeHumidity" ;;
  hv <- getitem h "value" ;;
  o <- getitem observation_data "properties" ;;
  w <- getitem o "windSpeed" ;;
  wv <- getitem w "value" ;;
  wm <- _ms_to_mph wv ;;
  o <- getitem observation_data "properties" ;;
  d <- getitem o "windDirection" ;;
  dv <- getitem d "value" ;;
  o <- getitem observation_data "properties" ;;
  desc <- getitem o "textDescription" ;;
  Return {| timestamp := ts;
            temperature_f := tf;
            temperature_c := tc;
            humidity := hv;
            wind_speed_mph := wm;
            wind_direction := dv;
            description := desc |}.

(** The entry ["forecast"] of [weather_data]: today and tonight. *)
Definition format_forecast (forecast_data : pyval) : result pyval :=
  fp <- getitem forecast_data "properties" ;;
  periods <- getitem fp "periods" ;;
  slice2 periods.

(** [isinstance(e, httpx.exceptions.RequestException)] under the
    instance [true]: the class taken to cover transport failures and
    error statuses, as the class of that name does in [requests]. *)
Definition is_RequestException (e : exn) : bool :=
  match e with
  | RequestError | HTTPStatusError => true
  | _ => false
  end.

(** [isinstance(e, (KeyError, IndexError, json.JSONDecodeError))] *)
Definition is_parse_error (e : exn) : bool :=
  match e with
  | KeyError | IndexError | JSONDecodeError => true
  | _ => false
  end.

Section Client.

(** The value of the expression [httpx.exceptions.RequestException] of
    the first handler: [false] when looking it up raises
    [AttributeError], [true] when the library has the attribute.  No
    release of [httpx] defines it (the name is that of [requests]), so
    the program as it runs is the instance [false]; the instance [true]
    is kept to say what the two handlers would do if the name were
    bound to a class of the errors of a request.  The library is not
    part of the repository. *)
Variable has_RequestException : bool.

(** The text an f-string gives for a [float]. *)
Variable float_str : float -> str.

Variable net : network.

(** [httpx.get(url, headers=self.headers)], as the [n]-th request. *)
Definition httpx_get (n : nat) (url : pyval) : result response :=
  match url with
  | VStr u =>
      match net n u with
      | ConnectionFailed => Raise RequestError
      | Responded r => Return r
      end
  | _ => Raise TypeError
  end.

(** The [try] block of [get_weather_data], in the order of the source:
    the four requests, which give [point_data], [forecast_data] and
    [observation_data]; then the dictionary [weather_data], entry by
    entry. *)
Definition requests (latitude longitude : float)
  : result (pyval * pyval * pyval) :=
  let point_url :=
    base_url ++ lit "/points/" ++ float_str latitude
             ++ lit "," ++ float_str longitude in
  response <- httpx_get 0 (VStr point_url) ;;
  _ <- raise_for_status response ;;
  point_data <- json response ;;
  p <- getitem point_data "properties" ;;
  forecast_url <- getitem p "forecast" ;;
  p <- getitem point_data "properties" ;;
  station_url <- getitem p "observationStations" ;;
  forecast_response <- httpx_get 1 forecast_url ;;
  _ <- raise_for_status forecast_response ;;
  forecast_data <- json forecast_response ;;
  stations_response <- httpx_get 2 station_url ;;
  _ <- raise_for_status stations_response ;;
  stations_data <- json stations_response ;;
  fs <- getitem stations_data "features" ;;
  f0 <- getitem0 fs ;;
  id <- getitem f0 "id" ;;
  nearest_station_url <- py_add id (VStr (lit "/observations/latest")) ;;
  observation_response <- httpx_get 3 nearest_station_url ;;
  _ <- raise_for_status observation_response ;;
  observation_data <- json observation_response ;;
  Return (point_data, forecast_data, observation_data).

Definition fetch_body (latitude longitude : float) : result WeatherSnapshot :=
  r <- requests latitude longitude ;;
  let '(point_data, forecast_data, observation_data) := r in
  loc <- format_location point_data latitude longitude ;;
  cur <- format_current_conditions observation_data ;;
  fc <- format_forecast forecast_data ;;
  Return {| location := loc; current_conditions := cur; forecast := fc |}.

(** The two [except] clauses, tried in order on an exception [e] of the
    [try] block.  The class expression of a clause is evaluated when
    the clause is tried; both handlers print a message and return
    [None]. *)
Definition handlers (e : exn) : result (option WeatherSnapshot) :=
  if has_RequestException then
    if is_RequestException e then Return None
    else if is_parse_error e then Return None
    else Raise e
  else Raise AttributeError.

Definition get_weather_data (latitude longitude : float)
  : result (option WeatherSnapshot) :=
  match fetch_body latitude longitude with
  | Return weather_data => Return (Some weather_data)
  | Raise e => handlers e
  end.

End Client.

(** ** The script body *)

(** The dictionary [result] written to [weather_report.json]. *)
Record OutputRecord : Type := {
  forecast_data : WeatherSnapshot;
  weather_report : str;
  color_code : option str;
  timestamp_ : str  (* the key "timestamp" *)
}.

(** What a run can change: the content of [weather_report.json] ([None]
    while the file does not exist) and the requests received by the
    generation service, latest first.  [json.dump] is not modelled: the
    content of the file is the record it was given. *)
Record World : Type := {
  weather_report_json : option OutputRecord;
  generation_calls : list (str * list str)
}.

Definition attachments : list str :=
  [ lit "https://hazecam.net/images/main/bluehill_left.jpg";
    lit "https://hazecam.net/images/main/bluehill_right.jpg" ].

(** The elements a [for] loop visits. *)
Definition iterate (v : pyval) : result (list pyval) :=
  match v with
  | VList l => Return l
  | VStr s => Return (map (fun c => VStr [c]) s)
  | VDict d => Return (map (fun kv => VStr (fst kv)) d)
  | _ => Raise TypeError
  end.

(** [forecasts + "\n - " + period["name"] + ": " + period["detailedForecast"]] *)
Definition add_period (forecasts : str) (period : pyval) : result str :=
  let nl := "010"%char in
  n <- getitem period "name" ;;
  a <- py_add (VStr (forecasts ++ nl :: lit " - ")) n ;;
  b <- py_add a (VStr (lit ": ")) ;;
  d <- getitem period "detailedForecast" ;;
  c <- py_add b d ;;
  match c with
  | VStr s => Return s
  | _ => Raise TypeError
  end.

Fixpoint add_periods (forecasts : str) (periods : list pyval) : result str :=
  match periods with
  | [] => Return forecasts
  | period :: rest =>
      forecasts <- add_period forecasts period ;;
      add_periods forecasts rest
  end.

Section Script.

Variable has_RequestException : bool.
Variable float_str : float -> str.
Variable net : network.

(** The constant [PROMPT].  No statement depends on its text, which
    holds code points above 255. *)
Variable PROMPT : str.

(** [datetime.now(TIMEZONE).strftime("%Y-%m-%d %H:%M:%S")] *)
Variable local_time : str.

(** The generation service: the text of the response to a prompt and
    its attachments, or the exception of a failed call. *)
Variable model : str -> list str -> result str.

(** The prompt text, from [data["forecast"]]. *)
Definition compose (data : WeatherSnapshot) : result str :=
  let nl := "010"%char in
  let forecasts :=
    lit "Below is the weather forecast for Boston, Massachusetts: " ++ [nl] in
  periods <- iterate (forecast data) ;;
  forecasts <- add_periods forecasts periods ;;
  let forecasts :=
    forecasts ++ nl :: nl :: lit "Current local time: " ++ local_time in
  Return (forecasts ++ PROMPT).

(** The block under [if __name__ == "__main__":].  The result is the
    world after the run and how the run ended.  [if data:] holds for
    every snapshot, a dictionary of three entries, and fails for [None].
    The model is asked when [response.__str__()] is evaluated, before
    the file is opened.  The write is taken to succeed here; [run]
    below adds what a failing disk does. *)
Definition main (w : World) : World * result unit :=
  match get_weather_data has_RequestException float_str net LAT LON with
  | Raise e => (w, Raise e)
  | Return None => (w, Return tt)
  | Return (Some data) =>
      match compose data with
      | Raise e => (w, Raise e)
      | Return forecasts =>
          let w :=
            {| weather_report_json := weather_report_json w;
               generation_calls :=
                 (forecasts, attachments) :: generation_calls w |} in
          match model forecasts attachments with
          | Raise e => (w, Raise e)
          | Return response =>
              let (response, color_code) := extract response in
              let result :=
                {| forecast_data := data;
                   weather_report := response;
                   color_code := color_code;
                   timestamp_ := local_time |} in
              ({| weather_report_json := Some result;
                  generation_calls := generation_calls w |}, Return tt)
          end
      end
  end.

End Script.

(** ** Writing the file *)

(** How [with open("weather_report.json", "w") as f: json.dump(...)]
    goes on the disk: [Stored], all of the text is in the file;
    [Refused], [open] fails and the file is not touched; [Cut k], the
    file was opened, and so emptied, and writing or closing failed with
    the first [k] characters of the text in the file. *)
Inductive write_outcome : Type :=
| Stored
| Refused
| Cut (k : nat).

Section Storage.

Variable has_RequestException : bool.
Variable float_str : float -> str.
Variable net : network.
Variable PROMPT : str.
Variable local_time : str.
Variable model : str -> list str -> result str.

(** The text [json.dump(result, f, indent=4)] writes for a record; the
    serialisation is not modelled. *)
Variable dumps : OutputRecord -> str.

Variable disk : write_outcome.

(** The [with] statement at the end of the script, on a file that holds
    [old] ([None] while it does not exist). *)
Definition write_report (old : option str) (record : OutputRecord)
  : option str * result unit :=
  match disk with
  | Stored => (Some (dumps record), Return tt)
  | Refused => (old, Raise OSError)
  | Cut k => (Some (firstn k (dumps record)), Raise OSError)
  end.

(** The whole script on a disk that can fail: [main] up to the record
    handed to [json.dump], then the write.  The result is the text of
    the file, the calls of the generation service and how the run
    ended. *)
Definition run (old : option str) (calls : list (str * list str))
  : option str * list (str * list str) * result unit :=
  let (w, r) :=
    main has_RequestException float_str net PROMPT local_time model
         {| weather_report_json := None; generation_calls := calls |} in
  match weather_report_json w with
  | None => (old, generation_calls w, r)
  | Some record =>
      let (file, r') := write_report old record in
      (file, generation_calls w, r')
  end.

End Storage.

(** ** Vocabulary of the statements *)

Definition opt_hex (o : option ascii) : bool :=
  match o with
  | Some c => is_hex c
  | None => false
  end.

(** A colour code: ['#'] and then three or six hexadecimal digits. *)
Definition is_color_code (c : str) : Prop :=
  exists ds, c = "#"%char :: ds /\ forallb is_hex ds = true
             /\ (length ds = 3 \/ length ds = 6).

(** [sep.join(pieces)] *)
Definition join (sep : str) (pieces : list str) : str :=
  match pieces with
  | [] => []
  | p :: ps => p ++ flat_map (fun q => sep ++ q) ps
  end.

(** The reading of the extractor under which only the first match goes:
    in a text with a first match [c1] and a later colour code [c2], the
    report is the text without that one occurrence of [c1], and [c2] is
    still in it. *)
Definition removes_first_match_only : Prop :=
  forall pre c1 mid c2 post : str,
    re_search (pre ++ c1 ++ mid ++ c2 ++ post) = Some (length pre, c1) ->
    is_color_code c2 ->
    extract (pre ++ c1 ++ mid ++ c2 ++ post)
    = (strip (pre ++ mid ++ c2 ++ post), Some c1)
    /\ contains c2 (fst (extract (pre ++ c1 ++ mid ++ c2 ++ post))) = true.

(** The reading of the extractor under which the report never holds the
    colour code it returns. *)
Definition report_never_holds_code : Prop :=
  forall raw c : str,
    snd (extract raw) = Some c -> contains c (fst (extract raw)) = false.

(** The number a finite [float] stands for. *)
Definition float_value (f : float) : option Q :=
  match Prim2SF f with
  | S754_zero _ => Some 0%Q
  | S754_finite s m e =>
      Some ((if s then -1 else 1) * (Zpos m # 1) * Qpower 2 e)%Q
  | _ => None
  end.

(** [len(v)] of a sequence. *)
Definition py_len (v : pyval) : option nat :=
  match v with
  | VList l => Some (length l)
  | VStr s => Some (length s)
  | _ => None
  end.

(** *** Sample documents and networks *)

Open Scope string_scope.

Definition obj (entries : list (string * pyval)) : pyval :=
  VDict (map (fun kv => (lit (fst kv), snd kv)) entries).

Definition text (s : string) : pyval := VStr (lit s).

Definition ok (v : pyval) : get_outcome :=
  Responded {| status_code := 200; json_body := Some v |}.

(** A network that answers the four requests of a run in turn. *)
Definition serve (r0 r1 r2 r3 : get_outcome) : network :=
  fun n _ =>
    match n with
    | 0 => r0
    | 1 => r1
    | 2 => r2
    | _ => r3
    end.

Definition sample_float_str (f : float) : str :=
  if PrimFloat.eqb f LAT then lit "42.287" else lit "-71.133".

Definition sample_point_data : pyval :=
  obj [("properties",
        obj [("forecast",
              text "https://api.weather.gov/gridpoints/BOX/69,86/forecast");
             ("observationStations",
              text "https://api.weather.gov/gridpoints/BOX/69,86/stations");
             ("relativeLocation",
              obj [("properties",
                    obj [("city", text "Boston"); ("state", text "MA")])])])].

Definition period (n d : string) : pyval :=
  obj [("name", text n); ("detailedForecast", text d)].

Definition sample_periods : list pyval :=
  [ period "Today" "Sunny, with a high near 61.";
    period "Tonight" "Mostly clear, with a low around 44.";
    period "Thursday" "Rain likely." ].

Definition sample_forecast_data : pyval :=
  obj [("properties", obj [("periods", VList sample_periods)])].

Definition sample_stations_data (features : list pyval) : pyval :=
  obj [("features", VList features)].

Definition sample_station : pyval :=
  obj [("id", text "https://api.weather.gov/stations/KBOS")].

Definition valued (v : pyval) : pyval := obj [("value", v)].

(** A latest observation with the given leaf values. *)
Definition sample_observation (t h w d desc : pyval) : pyval :=
  obj [("properties",
        obj [("timestamp", text "2024-11-06T14:54:00+00:00");
             ("temperature", valued t);
             ("relativeHumidity", valued h);
             ("windSpeed", valued w);
             ("windDirection", valued d);
             ("textDescription", desc)])].

(** A latest observation that has no key ["textDescription"]. *)
Definition observation_without_description : pyval :=
  obj [("properties",
        obj [("timestamp", text "2024-11-06T14:54:00+00:00");
             ("temperature", valued (VInt 12));
             ("relativeHumidity", valued (VInt 60));
             ("windSpeed", valued (VInt 3));
             ("windDirection", valued (VInt 180))])].

(** The run in which the first three answers are complete and the
    latest observation is [od]. *)
Definition net_with_observation (od : pyval) : network :=
  serve (ok sample_point_data) (ok sample_forecast_data)
        (ok (sample_stations_data [sample_station])) (ok od).

(** The run in which the station list has no feature. *)
Definition net_without_station : network :=
  serve (ok sample_point_data) (ok sample_forecast_data)
        (ok (sample_stations_data []))
        (ok (sample_observation (VInt 12) (VInt 60) (VInt 3) (VInt 180)
                                (text "Clear"))).

(** A generation service that always answers the same text. *)
Definition sample_model (_ : str) (_ : list str) : result str :=
  Return (lit "Grey and still. #778899").

Definition sample_PROMPT : str := lit "Review these two images.".

Definition sample_time : str := lit "2024-11-06 09:55:12".

Close Scope string_scope.

(** The leaf fields of an observation, by their keys; the first four
    hold their reading under ["value"]. *)
Definition valued_leaf_keys : list string :=
  ["temperature"; "relativeHumidity"; "windSpeed"; "windDirection"]%string.

Definition leaf_keys : list string :=
  valued_leaf_keys ++ ["textDescription"%string].

(** The snapshot of the sample run, for given current conditions. *)
Definition sample_snapshot (tf tc h wm d desc : pyval) : WeatherSnapshot :=
  {| location := {| name := text "Boston"; state := text "MA";
                    latitude := LAT; longitude := LON |};
     current_conditions := {|
       timestamp := text "2024-11-06T14:54:00+00:00";
       temperature_f := tf;
       temperature_c := tc;
       humidity := h;
       wind_speed_mph := wm;
       wind_direction := d;
       description := desc |};
     forecast := VList (firstn 2 sample_periods) |}.

(** The reading of the script under which the file holds a whole
    record or is left as it was, whatever the disk does. *)
Definition whole_record_or_nothing : Prop :=
  forall (has_RequestException : bool) (float_str : float -> str)
         (net : network) (PROMPT local_time : str)
         (model : str -> list str -> result str)
         (dumps : OutputRecord -> str) (disk : write_outcome)
         (old : option str) (calls : list (str * list str)),
    fst (fst (run has_RequestException float_str net PROMPT local_time
                  model dumps disk old calls)) = old
    \/ exists record,
         fst (fst (run has_RequestException float_str net PROMPT local_time
                       model dumps disk old calls))
         = Some (dumps record).

(** A stand-in for the text of a record. *)
Definition sample_dumps (record : OutputRecord) : str :=
  lit "{ weather_report: " ++ weather_report record ++ lit " }".

(** *** Vocabulary of the further properties *)

Definition opt_space (o : option ascii) : bool :=
  match o with
  | Some c => is_space c
  | None => false
  end.

(** The first line of the prompt. *)
Definition header : str :=
  lit "Below is the weather forecast for Boston, Massachusetts: "
  ++ ["010"%char].

(** The line of the prompt for a period with the given name and
    detailed forecast. *)
Definition period_line (nd : str * str) : str :=
  "010"%char :: lit " - " ++ fst nd ++ lit ": " ++ snd nd.

(** The whole prompt for the periods with the given names and detailed
    forecasts. *)
Definition prompt_text (PROMPT local_time : str) (nds : list (str * str))
  : str :=
  header ++ flat_map period_line nds
  ++ "010"%char :: "010"%char :: lit "Current local time: "
  ++ local_time ++ PROMPT.

(** A period that has a name and a detailed forecast, both [str]. *)
Definition named_period (p : pyval) (nd : str * str) : Prop :=
  getitem p "name" = Return (VStr (fst nd))
  /\ getitem p "detailedForecast" = Return (VStr (snd nd)).


(** A record left by an earlier run. *)
Definition earlier_record : OutputRecord :=
  {| forecast_data := sample_snapshot VNone VNone VNone VNone VNone VNone;
     weather_report := lit "Rain all day.";
     color_code := None;
     timestamp_ := lit "2024-11-05 18:00:03" |}.

(** The sample run with a complete observation. *)
Definition sample_net : network :=
  net_with_observation
    (sample_observation (VInt 12) (VInt 60) (VInt 3) (VInt 180)
                        (VStr (lit "Clear"))).



(** The exact Fahrenheit value of an integer Celsius reading, and the
    exact speed in miles per hour of an integer reading in metres per
    second at 2.237 miles per hour for a metre per second. *)
Definition exact_fahrenheit (z : Z) : Q := ((9 * z # 5) + 32)%Q.
Definition exact_mph (z : Z) : Q := ((2237 * z) # 1000)%Q.

(** [m] returns a [float] whose value is within [eps] of [x]. *)
Definition close_to (eps x : Q) (m : result pyval) : bool :=
  match m with
  | Return (VFloat f) =>
      match float_value f with
      | Some q => Qle_bool (Qabs (q - x)) eps
      | None => false
      end
  | _ => false
  end.

(** The integers from [lo], [n] of them. *)
Definition Z_range (lo : Z) (n : nat) : list Z :=
  map (fun k => (lo + Z.of_nat k)%Z) (seq 0 n).

(** A status in 2xx. *)
Definition status_ok (r : response) : Prop :=
  (200 <= status_code r < 300)%Z.

(** The address of the first request. *)
Definition point_url (float_str : float -> str) (lat lon : float) : str :=
  base_url ++ lit "/points/" ++ float_str lat ++ lit "," ++ float_str lon.

(** Two networks that give the same answers to the first four requests
    of a run. *)
Definition agree_on_run (net net' : network) : Prop :=
  forall n u, n < 4 -> net n u = net' n u.

(** The first request fails: no answer, an answer with a status outside
    2xx, or an answer whose body is not JSON. *)
Definition first_request_fails (float_str : float -> str) (net : network)
           (lat lon : float) : Prop :=
  net 0 (point_url float_str lat lon) = ConnectionFailed
  \/ exists r, net 0 (point_url float_str lat lon) = Responded r
               /\ (~ status_ok r \/ json_body r = None).

(** The first answer is complete as far as the two addresses: a status
    in 2xx and a JSON body whose ["properties"] are [pp]. *)
Definition point_answered (float_str : float -> str) (net : network)
           (lat lon : float) (pp : pyval) : Prop :=
  exists r0 pd,
    net 0 (point_url float_str lat lon) = Responded r0
    /\ status_ok r0 /\ json_body r0 = Some pd
    /\ getitem pd "properties" = Return pp.

(** The first three answers are complete, and the station list holds
    the features [fs]. *)
Definition stations_answered (float_str : float -> str) (net : network)
           (lat lon : float) (fs : pyval) : Prop :=
  exists pp fu su r1 fd r2 sd,
    point_answered float_str net lat lon pp
    /\ getitem pp "forecast" = Return (VStr fu)
    /\ getitem pp "observationStations" = Return (VStr su)
    /\ net 1 fu = Responded r1 /\ status_ok r1 /\ json_body r1 = Some fd
    /\ net 2 su = Responded r2 /\ status_ok r2 /\ json_body r2 = Some sd
    /\ getitem sd "features" = Return fs.

(** * Properties *)

(** ** Character classes *)

Lemma hex_is_word (c : ascii) : is_hex c = true -> is_word c = true.
Proof.
  destruct c as [[] [] [] [] [] [] [] []]; vm_compute; congruence.
Qed.

Lemma hex_not_space (c : ascii) : is_hex c = true -> is_space c = false.
Proof.
  destruct c as [[] [] [] [] [] [] [] []]; vm_compute; congruence.
Qed.

(** ** The colour pattern *)

Lemma hex3_inv (s : str) (d : ascii) (rest : str) :
  hex3 s = Some (d, rest) ->
  exists a b, s = a :: b :: d :: rest
              /\ is_hex a = true /\ is_hex b = true /\ is_hex d = true.
Proof.
  destruct s as [|a [|b [|c t]]]; simpl; try discriminate.
  destruct (is_hex a) eqn:Ha, (is_hex b) eqn:Hb, (is_hex c) eqn:Hc;
    simpl; try discriminate.
  intros [= <- <-]. now exists a, b.
Qed.

Lemma boundary_after_hex (d : ascii) (rest : str) :
  is_hex d = true ->
  word_boundary (Some d) rest = negb (opt_word (hd_error rest)).
Proof.
  intros H. unfold word_boundary. simpl. now rewrite (hex_is_word _ H).
Qed.

(** What a match at the head of [s] looks like. *)
Lemma match_here_inv (s : str) (n : nat) :
  match_here s = Some n ->
  exists ds rest,
    s = "#"%char :: ds ++ rest /\ n = S (length ds)
    /\ forallb is_hex ds = true /\ (length ds = 3 \/ length ds = 6)
    /\ opt_word (hd_error rest) = false.
Proof.
  destruct s as [|c t]; simpl; try discriminate.
  destruct (Ascii.eqb c "#") eqn:Hc; try discriminate.
  apply Ascii.eqb_eq in Hc. subst c.
  destruct (hex3 t) as [[d3 t3]|] eqn:H3; try discriminate.
  destruct (hex3_inv _ _ _ H3) as (a & b & -> & Ha & Hb & Hd3).
  rewrite (boundary_after_hex _ _ Hd3).
  assert (One : (if negb (opt_word (hd_error t3)) then Some 4 else None) = Some n ->
    exists ds rest,
      "#"%char :: a :: b :: d3 :: t3 = "#"%char :: ds ++ rest /\ n = S (length ds)
      /\ forallb is_hex ds = true /\ (length ds = 3 \/ length ds = 6)
      /\ opt_word (hd_error rest) = false).
  { destruct (opt_word (hd_error t3)) eqn:Hw; simpl; try discriminate.
    intros [= <-]. exists [a; b; d3], t3. simpl.
    rewrite Ha, Hb, Hd3. repeat split; auto. }
  destruct (hex3 t3) as [[d6 t6]|] eqn:H6; auto.
  destruct (hex3_inv _ _ _ H6) as (e & f & -> & He & Hf & Hd6).
  rewrite (boundary_after_hex _ _ Hd6).
  destruct (opt_word (hd_error t6)) eqn:Hw; simpl; auto.
  intros [= <-]. exists [a; b; d3; e; f; d6], t6. simpl.
  rewrite Ha, Hb, Hd3, He, Hf, Hd6. repeat split; auto.
Qed.

(** What [re.search] returns: the text splits around the match, the
    match is anchored where it starts, and no earlier position has one. *)
Lemma search_from_inv (s : str) :
  forall (i j : nat) (g : str),
    search_from i s = Some (j, g) ->
    exists pre rest,
      s = pre ++ g ++ rest /\ j = i + length pre
      /\ match_here (g ++ rest) = Some (length g)
      /\ forall k, k < length pre -> match_here (skipn k s) = None.
Proof.
  induction s as [|c t IH]; intros i j g; cbn [search_from].
  - simpl. discriminate.
  - destruct (match_here (c :: t)) as [n|] eqn:Hm.
    + intros H. injection H as <- <-.
      destruct (match_here_inv _ _ Hm) as (ds & rest & E & -> & _).
      assert (L : length (firstn (S (length ds)) (c :: t)) = S (length ds)).
      { rewrite length_firstn, E. simpl length. rewrite length_app. lia. }
      exists [], (skipn (S (length ds)) (c :: t)).
      split; [|split; [|split]].
      * simpl app. now rewrite firstn_skipn.
      * simpl. lia.
      * rewrite firstn_skipn, Hm. now rewrite L.
      * simpl. lia.
    + intros H. destruct (IH _ _ _ H) as (pre & rest & E & -> & Hg & Hk).
      exists (c :: pre), rest. simpl. repeat split.
      * now rewrite E.
      * lia.
      * exact Hg.
      * intros [|k] Lk; simpl; [exact Hm|]. apply Hk. lia.
Qed.

Lemma extract_code (raw c : str) :
  snd (extract raw) = Some c ->
  exists j, re_search raw = Some (j, c).
Proof.
  unfold extract. simpl. destruct (re_search raw) as [[j g]|]; simpl.
  - intros [= <-]. now exists j.
  - discriminate.
Qed.

Lemma app_same_length {A : Type} (l1 l1' l2 l2' : list A) :
  l1 ++ l2 = l1' ++ l2' -> length l1 = length l1' -> l1 = l1' /\ l2 = l2'.
Proof.
  revert l1'. induction l1 as [|a l1 IH]; intros [|b l1']; simpl;
    try discriminate; auto.
  intros [= <- E] [= L]. destruct (IH _ E L) as [-> ->]. auto.
Qed.

Lemma forallb_hex_in (ds : str) (x : ascii) :
  forallb is_hex ds = true -> In x ds -> is_hex x = true.
Proof.
  intros H Hin. rewrite forallb_forall in H. now apply H.
Qed.

(** Two ways of cutting a text after hexadecimal digits, the second one
    followed by a boundary: the cuts agree, or the second one is longer
    and the first one is followed by a digit. *)
Lemma hex_cut_cases (ds ds' r r' : str) :
  forallb is_hex ds = true -> forallb is_hex ds' = true ->
  opt_word (hd_error r') = false ->
  ds ++ r = ds' ++ r' ->
  (ds = ds' /\ r = r')
  \/ exists x l, ds' = ds ++ x :: l /\ r = x :: l ++ r' /\ is_hex x = true.
Proof.
  intros Hds Hds' Hb E.
  apply app_eq_app in E. destruct E as (l & [[-> ->] | [-> ->]]).
  - destruct l as [|x l].
    + left. now rewrite !app_nil_r.
    + exfalso. simpl in Hb.
      assert (Hx : is_hex x = true).
      { apply (forallb_hex_in _ _ Hds). apply in_or_app. right. now left. }
      apply hex_is_word in Hx. congruence.
  - destruct l as [|x l].
    + left. now rewrite !app_nil_r.
    + right. exists x, l. repeat split.
      apply (forallb_hex_in _ _ Hds'). apply in_or_app. right. now left.
Qed.

Lemma no_match_unless (ds r : str) :
  forallb is_hex ds = true ->
  (forall ds' r' : str,
      forallb is_hex ds' = true -> (length ds' = 3 \/ length ds' = 6) ->
      opt_word (hd_error r') = false -> ds ++ r = ds' ++ r' -> False) ->
  match_here ("#"%char :: ds ++ r) = None.
Proof.
  intros Hds Habs.
  destruct (match_here ("#"%char :: ds ++ r)) as [n|] eqn:Hm; auto.
  destruct (match_here_inv _ _ Hm) as (ds' & r' & E & _ & Hds' & L & Hb).
  injection E as E. exfalso. eauto.
Qed.

Lemma search_code_shape (raw c : str) (j : nat) :
  re_search raw = Some (j, c) -> is_color_code c.
Proof.
  intros Hs.
  destruct (search_from_inv _ _ _ _ Hs) as (pre & rest & _ & _ & Hm & _).
  destruct (match_here_inv _ _ Hm) as (ds & r & E & L & Hds & Hlen & _).
  change ("#"%char :: ds ++ r) with (("#"%char :: ds) ++ r) in E.
  destruct (app_same_length _ _ _ _ E) as [-> _]; [simpl; lia|].
  now exists ds.
Qed.

(** C6.  Whatever the model wrote, a colour code the extractor returns
    is ['#'] followed by exactly three or exactly six hexadecimal digits. *)
Theorem color_code_is_hex_color (raw c : str) :
  snd (extract raw) = Some c -> is_color_code c.
Proof.
  intros H. destruct (extract_code _ _ H) as (j & Hs).
  exact (search_code_shape _ _ _ Hs).
Qed.

Lemma color_code_is_hex_color_witness :
  is_color_code (lit "#1E90FF").
Proof.
  apply (color_code_is_hex_color (lit "Sunny and bright. #1E90FF")).
  reflexivity.
Defined.

(** C10.  The pattern ends on a word boundary.  With the digits
    counted as the whole run of hexadecimal digits after ['#']: a run of
    four or five digits gives no match at that position; a run of three
    or of six digits followed by another word character gives no match
    at that position; and in the text the colour code the extractor
    returns is followed by no word character, so it is never the first
    three digits of a longer alphanumeric run. *)
Theorem color_pattern_needs_boundary :
  (forall ds rest : str,
      forallb is_hex ds = true -> (length ds = 4 \/ length ds = 5) ->
      opt_hex (hd_error rest) = false ->
      match_here ("#"%char :: ds ++ rest) = None)
  /\ (forall (ds : str) (w : ascii) (rest : str),
      forallb is_hex ds = true ->
      ((length ds = 3 /\ is_hex w = false) \/ length ds = 6) ->
      is_word w = true ->
      match_here ("#"%char :: ds ++ w :: rest) = None)
  /\ (forall raw c : str,
      snd (extract raw) = Some c ->
      exists pre rest,
        raw = pre ++ c ++ rest /\ opt_word (hd_error rest) = false).
Proof.
  split; [|split].
  - intros ds rest Hds L Hn. apply no_match_unless; auto.
    intros ds' r' Hds' L' Hb E.
    destruct (hex_cut_cases _ _ _ _ Hds Hds' Hb E)
      as [[-> _] | (x & l & _ & -> & Hx)].
    + lia.
    + simpl in Hn. congruence.
  - intros ds w rest Hds L Hw. apply no_match_unless; auto.
    intros ds' r' Hds' L' Hb E.
    destruct (hex_cut_cases _ _ _ _ Hds Hds' Hb E)
      as [[_ <-] | (x & l & -> & [= <- _] & Hx)].
    + simpl in Hb. congruence.
    + rewrite length_app in L'. simpl in L'.
      destruct L as [[L Hnx] | L]; [congruence | lia].
  - intros raw c H. destruct (extract_code _ _ H) as (j & Hs).
    destruct (search_from_inv _ _ _ _ Hs) as (pre & rest & E & _ & Hm & _).
    exists pre, rest. split; auto.
    destruct (match_here_inv _ _ Hm) as (ds & r & E' & L & _ & _ & Hb).
    change ("#"%char :: ds ++ r) with (("#"%char :: ds) ++ r) in E'.
    destruct (app_same_length _ _ _ _ E') as [_ ->]; [simpl; lia|].
    exact Hb.
Qed.

Lemma color_pattern_needs_boundary_witness :
  match_here (lit "#abcd, dusk") = None
  /\ match_here (lit "#abcdefg") = None
  /\ exists pre rest,
       lit "x #abcd #abc." = pre ++ lit "#abc" ++ rest
       /\ opt_word (hd_error rest) = false.
Proof.
  destruct color_pattern_needs_boundary as (H45 & H36 & Hret).
  split; [|split].
  - apply (H45 (lit "abcd") (lit ", dusk")); [reflexivity | now left | reflexivity].
  - apply (H36 (lit "abcdef") "g"%char []); [reflexivity | now right | reflexivity].
  - apply (Hret (lit "x #abcd #abc.") (lit "#abc")). reflexivity.
Defined.

(** ** [str] operations *)

Lemma starts_with_app (old s x : str) :
  starts_with old s = true -> starts_with old (s ++ x) = true.
Proof.
  revert s. induction old as [|a old IH]; intros [|b s]; simpl; auto;
    try discriminate.
  rewrite !andb_true_iff. intros [-> H]. auto.
Qed.

Lemma starts_with_self (old rest : str) : starts_with old (old ++ rest) = true.
Proof.
  induction old as [|a old IH]; simpl; auto.
  now rewrite Ascii.eqb_refl.
Qed.

Lemma skipn_self (old rest : str) : skipn (length old) (old ++ rest) = rest.
Proof.
  induction old; simpl; auto.
Qed.

Lemma starts_with_split (old s : str) :
  starts_with old s = true -> s = old ++ skipn (length old) s.
Proof.
  revert s. induction old as [|a old IH]; intros [|b s]; simpl; auto;
    try discriminate.
  rewrite andb_true_iff, Ascii.eqb_eq. intros [-> H]. f_equal. auto.
Qed.

Lemma contains_cons (old : str) (c : ascii) (t : str) :
  contains old (c :: t) = starts_with old (c :: t) || contains old t.
Proof. reflexivity. Qed.

Lemma contains_app (old pre rest : str) :
  contains old (pre ++ old ++ rest) = true.
Proof.
  induction pre as [|c pre IH].
  - simpl app. destruct (old ++ rest) eqn:E.
    + destruct old; [reflexivity | discriminate].
    + rewrite contains_cons, <- E, starts_with_self. reflexivity.
  - simpl app. rewrite contains_cons, IH. apply orb_true_r.
Qed.

Lemma join_cons (sep p q : str) (ps : list str) :
  join sep (p :: q :: ps) = p ++ sep ++ join sep (q :: ps).
Proof.
  simpl. now rewrite <- app_assoc.
Qed.

(** Without an occurrence of [old] the scan copies the text. *)
Lemma replace_scan_none (old new : str) (fuel : nat) :
  forall s, contains old s = false -> replace_scan fuel old new s = s.
Proof.
  induction fuel as [|fuel IH]; intros [|c t]; auto.
  rewrite contains_cons, orb_false_iff. intros [H1 H2].
  cbn [replace_scan]. rewrite H1. f_equal. auto.
Qed.

(** The scan up to and over the first occurrence of [old]. *)
Lemma replace_scan_first (old new rest : str) :
  old <> [] ->
  forall (pre : str) (fuel i : nat),
    length (pre ++ old ++ rest) <= fuel ->
    find_from i old (pre ++ old ++ rest) = Some (i + length pre) ->
    replace_scan fuel old new (pre ++ old ++ rest)
    = pre ++ new ++ replace_scan (fuel - S (length pre)) old new rest.
Proof.
  intros Hold. induction pre as [|c pre IH]; intros fuel i Hf Hfind.
  - simpl app in *. destruct old as [|a old]; [congruence|].
    destruct fuel as [|fuel]; [simpl in Hf; lia|].
    change (replace_scan (S fuel) (a :: old) new ((a :: old) ++ rest))
      with (if starts_with (a :: old) ((a :: old) ++ rest)
            then new ++ replace_scan fuel (a :: old) new
                          (skipn (length (a :: old)) ((a :: old) ++ rest))
            else a :: replace_scan fuel (a :: old) new (old ++ rest)).
    rewrite starts_with_self, skipn_self. simpl. now rewrite Nat.sub_0_r.
  - simpl app in *. destruct fuel as [|fuel]; [simpl in Hf; lia|].
    cbn [find_from] in Hfind. cbn [replace_scan].
    destruct (starts_with old (c :: pre ++ old ++ rest)).
    + injection Hfind as Hfind. simpl in Hfind. lia.
    + f_equal. simpl length. rewrite (IH fuel (S i)).
      * reflexivity.
      * simpl in Hf. lia.
      * rewrite Hfind. f_equal. simpl. lia.
Qed.

(** The scan cuts the text at the occurrences it finds: the text is the
    pieces joined by [old], no piece holds [old], and the result is the
    pieces joined by [new]. *)
Lemma replace_scan_pieces (old new : str) :
  old <> [] ->
  forall (fuel : nat) (s : str),
    length s <= fuel ->
    exists p ps,
      s = join old (p :: ps)
      /\ Forall (fun q => contains old q = false) (p :: ps)
      /\ replace_scan fuel old new s = join new (p :: ps).
Proof.
  intros Hold. induction fuel as [|fuel IH]; intros s Hf.
  - destruct s; [|simpl in Hf; lia]. exists [], []. simpl. repeat split.
    constructor; auto. destruct old; [congruence | reflexivity].
  - destruct s as [|c t].
    + exists [], []. simpl. repeat split.
      constructor; auto. destruct old; [congruence | reflexivity].
    + cbn [replace_scan]. destruct (starts_with old (c :: t)) eqn:E.
      * pose proof (starts_with_split _ _ E) as Hs.
        destruct (IH (skipn (length old) (c :: t))) as (p & ps & E1 & F & R).
        { destruct old as [|a old]; [congruence|]. simpl.
          rewrite length_skipn. simpl in Hf. lia. }
        exists [], (p :: ps). repeat split.
        -- rewrite join_cons, <- E1. exact Hs.
        -- constructor; auto. destruct old; [congruence | reflexivity].
        -- rewrite join_cons, R. reflexivity.
      * destruct (IH t) as (p & ps & E1 & F & R); [simpl in Hf; lia|].
        exists (c :: p), ps. repeat split.
        -- rewrite E1. reflexivity.
        -- inversion F as [|? ? Hp Hps]; subst. constructor; auto.
           rewrite contains_cons, Hp, orb_false_r.
           destruct (starts_with old (c :: p)) eqn:E2; auto.
           apply (starts_with_app _ _ (flat_map (fun q => old ++ q) ps)) in E2.
           simpl in E2. simpl in E. congruence.
        -- rewrite R. reflexivity.
Qed.

Lemma lstrip_keeps (x : ascii) (tl : str) :
  is_space x = false ->
  forall a, exists a', lstrip (a ++ x :: tl) = a' ++ x :: tl.
Proof.
  intros Hx. induction a as [|h a IH].
  - exists []. simpl. now rewrite Hx.
  - simpl. destruct (is_space h).
    + exact IH.
    + now exists (h :: a).
Qed.

(** [strip] leaves in place a piece of text that begins and ends with
    characters that are not white space. *)
Lemma strip_keeps (x y : ascii) (m a b : str) :
  is_space x = false -> is_space y = false ->
  exists a' b', strip (a ++ (x :: m ++ [y]) ++ b) = a' ++ (x :: m ++ [y]) ++ b'.
Proof.
  intros Hx Hy. unfold strip, rstrip.
  simpl app. destruct (lstrip_keeps x ((m ++ [y]) ++ b) Hx a) as (a' & ->).
  replace (rev (a' ++ x :: (m ++ [y]) ++ b))
    with (rev b ++ y :: rev (a' ++ x :: m)).
  - destruct (lstrip_keeps y (rev (a' ++ x :: m)) Hy (rev b)) as (b' & ->).
    exists a', (rev b'). rewrite rev_app_distr. simpl rev.
    rewrite rev_involutive.
    repeat (rewrite <- ?app_assoc; simpl). reflexivity.
  - repeat (rewrite ?rev_app_distr; simpl).
    repeat (rewrite <- ?app_assoc; simpl). reflexivity.
Qed.

Lemma color_code_ends (c : str) :
  is_color_code c ->
  exists m y, c = "#"%char :: m ++ [y] /\ is_space y = false.
Proof.
  intros (ds & -> & Hds & L).
  destruct (exists_last (l := ds)) as (m & y & ->).
  - intros ->. simpl in L. lia.
  - exists m, y. split; auto. apply hex_not_space.
    apply (forallb_hex_in _ _ Hds). apply in_or_app. right. now left.
Qed.

Lemma color_code_in_strip (a c b : str) :
  is_color_code c -> contains c (strip (a ++ c ++ b)) = true.
Proof.
  intros Hc. destruct (color_code_ends _ Hc) as (m & y & -> & Hy).
  destruct (strip_keeps "#"%char y m a b eq_refl Hy) as (a' & b' & ->).
  apply contains_app.
Qed.

Lemma color_code_not_empty (c : str) : is_color_code c -> c <> [].
Proof.
  intros (ds & -> & _). discriminate.
Qed.

Lemma extract_found (raw c : str) (j : nat) :
  re_search raw = Some (j, c) ->
  extract raw = (strip (replace_scan (length raw) c [] raw), Some c).
Proof.
  intros Hs. pose proof (search_code_shape _ _ _ Hs) as (ds & -> & _).
  unfold extract. rewrite Hs. reflexivity.
Qed.

(** C3, as it holds.  In a text whose first match is [c1] and which
    holds a later colour code [c2], the extractor returns [c1]; when the
    characters of [c1] occur in the text at the match and nowhere else,
    the report is the text without that occurrence, stripped, and [c2] is
    still in it. *)
Theorem second_code_stays_when_first_is_unique (pre c1 mid c2 post : str) :
  re_search (pre ++ c1 ++ mid ++ c2 ++ post) = Some (length pre, c1) ->
  is_color_code c2 ->
  find c1 (pre ++ c1 ++ mid ++ c2 ++ post) = Some (length pre) ->
  contains c1 (mid ++ c2 ++ post) = false ->
  extract (pre ++ c1 ++ mid ++ c2 ++ post)
  = (strip (pre ++ mid ++ c2 ++ post), Some c1)
  /\ contains c2 (fst (extract (pre ++ c1 ++ mid ++ c2 ++ post))) = true.
Proof.
  intros Hs Hc2 Hfind Hnone.
  pose proof (color_code_not_empty _ (search_code_shape _ _ _ Hs)) as Hne.
  assert (E : extract (pre ++ c1 ++ mid ++ c2 ++ post)
              = (strip (pre ++ mid ++ c2 ++ post), Some c1)).
  { rewrite (extract_found _ _ _ Hs). f_equal. f_equal.
    rewrite (replace_scan_first c1 [] (mid ++ c2 ++ post) Hne pre _ 0);
      auto.
    simpl app. now rewrite replace_scan_none. }
  split; [exact E|]. rewrite E. simpl fst.
  rewrite app_assoc. now apply color_code_in_strip.
Qed.

Lemma second_code_stays_when_first_is_unique_witness :
  extract (lit "Fog #778899 lifting to #abc by noon")
  = (lit "Fog  lifting to #abc by noon", Some (lit "#778899"))
  /\ contains (lit "#abc")
       (fst (extract (lit "Fog #778899 lifting to #abc by noon"))) = true.
Proof.
  apply (second_code_stays_when_first_is_unique
           (lit "Fog ") (lit "#778899") (lit " lifting to ") (lit "#abc")
           (lit " by noon")).
  - reflexivity.
  - exists (lit "abc"). repeat split. now left.
  - reflexivity.
  - reflexivity.
Defined.

(** C3, as stated, fails: [replace] takes out every copy of the first
    match, also inside a later colour code. *)
Lemma first_match_only_fails :
  extract (lit "Grey #abc or #abcdef")
  = (lit "Grey  or def", Some (lit "#abc"))
  /\ ~ removes_first_match_only.
Proof.
  split; [reflexivity|]. intros H.
  destruct (H (lit "Grey ") (lit "#abc") (lit " or ") (lit "#abcdef") [])
    as [_ Hc].
  - reflexivity.
  - exists (lit "abcdef"). repeat split. now right.
  - vm_compute in Hc. discriminate.
Qed.

Lemma contains_head_in (a : ascii) (l s : str) :
  contains (a :: l) s = true -> In a s.
Proof.
  induction s as [|b t IH]; [discriminate|].
  rewrite contains_cons, orb_true_iff. intros [H|H].
  - simpl in H. apply andb_true_iff in H. destruct H as [H _].
    apply Ascii.eqb_eq in H. subst. now left.
  - right. auto.
Qed.

Lemma in_lstrip (x : ascii) (s : str) : In x (lstrip s) -> In x s.
Proof.
  induction s as [|c t IH]; simpl; auto.
  destruct (is_space c); auto.
Qed.

Lemma in_strip (x : ascii) (s : str) : In x (strip s) -> In x s.
Proof.
  unfold strip, rstrip. intros H.
  apply in_rev, in_lstrip, in_rev in H. now apply in_lstrip.
Qed.

Lemma in_join_nil (x : ascii) (p : str) (ps : list str) :
  In x (join [] (p :: ps)) -> exists q, In q (p :: ps) /\ In x q.
Proof.
  simpl. intros H. apply in_app_or in H. destruct H as [H|H].
  - exists p. auto.
  - apply in_flat_map in H. destruct H as (q & Hq & H). exists q. auto.
Qed.

(** C9, as it holds.  When a colour code [c] is found, [replace] takes
    out every occurrence of [c] that its scan from the left finds, the
    first and each later one: the text is two or more pieces joined by
    [c], no piece holds [c], and the report is the pieces put together,
    stripped.  Where no piece holds a ['#'], the report holds no
    occurrence of [c]. *)
Theorem replace_takes_out_each_scanned_copy (raw c : str) :
  snd (extract raw) = Some c ->
  exists p ps,
    ps <> []
    /\ raw = join c (p :: ps)
    /\ Forall (fun q => contains c q = false) (p :: ps)
    /\ fst (extract raw) = strip (join [] (p :: ps))
    /\ ((forall q, In q (p :: ps) -> ~ In "#"%char q) ->
        contains c (fst (extract raw)) = false).
Proof.
  intros H. destruct (extract_code _ _ H) as (j & Hs).
  pose proof (search_code_shape _ _ _ Hs) as Hc.
  pose proof (color_code_not_empty _ Hc) as Hne.
  destruct (replace_scan_pieces c [] Hne (length raw) raw (le_n _))
    as (p & ps & E & F & R).
  assert (Hx : fst (extract raw) = strip (join [] (p :: ps))).
  { rewrite (extract_found _ _ _ Hs). simpl fst. now rewrite R. }
  exists p, ps. split; [|split; [|split; [|split]]]; auto.
  - intros ->. simpl in E. rewrite app_nil_r in E. subst p.
    destruct (search_from_inv _ _ _ _ Hs) as (pre & rest & E & _).
    apply Forall_inv in F. rewrite E, contains_app in F. discriminate.
  - intros Hno. rewrite Hx.
    destruct (contains c (strip (join [] (p :: ps)))) eqn:Hcon; auto.
    destruct Hc as (ds & -> & _).
    apply contains_head_in, in_strip, in_join_nil in Hcon.
    destruct Hcon as (q & Hq & Hin). now destruct (Hno q Hq).
Qed.

Lemma replace_takes_out_each_scanned_copy_witness :
  exists p ps,
    ps <> []
    /\ lit "#fff at dawn, #fff at dusk" = join (lit "#fff") (p :: ps)
    /\ Forall (fun q => contains (lit "#fff") q = false) (p :: ps)
    /\ fst (extract (lit "#fff at dawn, #fff at dusk"))
       = strip (join [] (p :: ps))
    /\ ((forall q, In q (p :: ps) -> ~ In "#"%char q) ->
        contains (lit "#fff")
                 (fst (extract (lit "#fff at dawn, #fff at dusk"))) = false).
Proof.
  apply (replace_takes_out_each_scanned_copy
           (lit "#fff at dawn, #fff at dusk") (lit "#fff")).
  reflexivity.
Defined.

(** C9, as stated, fails: taking the copies out can bring the
    characters of the colour code together again. *)
Lemma report_can_hold_code :
  extract (lit "#abc #a#abcbc") = (lit "#abc", Some (lit "#abc"))
  /\ ~ report_never_holds_code.
Proof.
  split; [reflexivity|]. intros H.
  specialize (H (lit "#abc #a#abcbc") (lit "#abc") eq_refl).
  vm_compute in H. discriminate.
Qed.

(** ** The unit converters *)

Set Warnings "-inexact-float".

(** C7.  Celsius to Fahrenheit: 0 gives 32, 100 gives 212 (for the
    [int] and for the [float] of a decoded observation), [None] gives
    [None], and every other input [c] gives [(c * 9 / 5) + 32] with
    Python's operators; on a [float] these are the binary64 operations,
    on an [int] the product is exact and the quotient rounded once. *)
Theorem celsius_to_fahrenheit_spec :
  _celsius_to_fahrenheit (VInt 0) = Return (VFloat 32)
  /\ _celsius_to_fahrenheit (VInt 100) = Return (VFloat 212)
  /\ _celsius_to_fahrenheit (VFloat 0) = Return (VFloat 32)
  /\ _celsius_to_fahrenheit (VFloat 100) = Return (VFloat 212)
  /\ _celsius_to_fahrenheit VNone = Return VNone
  /\ (forall c : pyval,
        c <> VNone ->
        _celsius_to_fahrenheit c
        = (a <- py_mul c (VInt 9) ;; b <- py_truediv a (VInt 5) ;;
           py_add b (VInt 32)))
  /\ (forall f : float,
        _celsius_to_fahrenheit (VFloat f)
        = Return (VFloat (f * 9 / 5 + 32)%float))
  /\ (forall z : Z,
        _celsius_to_fahrenheit (VInt z)
        = (q <- int_true_divide (z * 9) 5 ;; Return (VFloat (q + 32)%float))).
Proof.
  repeat split; try reflexivity.
  - intros c Hc. destruct c; try reflexivity. congruence.
  - intros z. unfold _celsius_to_fahrenheit, py_mul, py_truediv.
    cbn [as_num bind]. destruct (int_true_divide (z * 9) 5); reflexivity.
Qed.

Lemma celsius_to_fahrenheit_spec_witness :
  _celsius_to_fahrenheit (VInt 37) = Return (VFloat 98.6).
Proof.
  destruct celsius_to_fahrenheit_spec as (_ & _ & _ & _ & _ & H & _).
  rewrite (H (VInt 37)); [reflexivity | discriminate].
Defined.

(** C8.  Metres per second to miles per hour: 1 gives the [float]
    2.237, a number within 1e-3 of 2.237; [None] gives [None]; and every
    other input [v] gives [v * 2.237] with Python's operator, the
    binary64 product on a [float]. *)
Theorem ms_to_mph_spec :
  _ms_to_mph (VInt 1) = Return (VFloat 2.237)
  /\ (exists q : Q,
        float_value 2.237 = Some q
        /\ (Qabs (q - (2237 # 1000)) <= 1 # 1000)%Q)
  /\ _ms_to_mph (VFloat 1) = Return (VFloat 2.237)
  /\ _ms_to_mph VNone = Return VNone
  /\ (forall v : pyval,
        v <> VNone -> _ms_to_mph v = py_mul v (VFloat 2.237))
  /\ (forall f : float,
        _ms_to_mph (VFloat f) = Return (VFloat (f * 2.237)%float)).
Proof.
  repeat split; try reflexivity.
  - eexists. split; [vm_compute; reflexivity|].
    apply Qle_bool_iff. vm_compute. reflexivity.
  - intros v Hv. destruct v; try reflexivity. congruence.
Qed.

Lemma ms_to_mph_spec_witness :
  _ms_to_mph (VInt 10) = Return (VFloat 22.37).
Proof.
  destruct ms_to_mph_spec as (_ & _ & _ & _ & H & _).
  rewrite (H (VInt 10)); [reflexivity | discriminate].
Defined.

Set Warnings "inexact-float".

(** ** The error monad *)

Lemma bind_Return {A B : Type} (m : result A) (k : A -> result B) (b : B) :
  bind m k = Return b -> exists a, m = Return a /\ k a = Return b.
Proof.
  destruct m as [a|e]; simpl; [|discriminate]. intros H. now exists a.
Qed.

(** Goes down a chain of [bind]s that returned, naming each value. *)
Ltac bind_inv H :=
  repeat (let a := fresh "v" in
          let E := fresh "E" in
          apply bind_Return in H; destruct H as (a & E & H);
          cbv beta in H).

(** ** The client *)

Lemma handlers_no_snapshot (hre : bool) (e : exn) (snap : WeatherSnapshot) :
  handlers hre e <> Return (Some snap).
Proof.
  unfold handlers.
  destruct hre, (is_RequestException e), (is_parse_error e); discriminate.
Qed.

(** A fetch that returns a snapshot went through the whole [try] block. *)
Lemma get_weather_data_success (hre : bool) (float_str : float -> str)
      (net : network) (lat lon : float) (snap : WeatherSnapshot) :
  get_weather_data hre float_str net lat lon = Return (Some snap) ->
  exists pd fd od loc cur,
    requests float_str net lat lon = Return (pd, fd, od)
    /\ format_location pd lat lon = Return loc
    /\ format_current_conditions od = Return cur
    /\ format_forecast fd = Return (forecast snap)
    /\ snap = {| location := loc; current_conditions := cur;
                 forecast := forecast snap |}.
Proof.
  unfold get_weather_data.
  destruct (fetch_body float_str net lat lon) as [wd|e] eqn:Hb.
  - intros [= <-]. unfold fetch_body in Hb.
    apply bind_Return in Hb. destruct Hb as ([[pd fd] od] & Hr & Hb).
    cbv beta iota in Hb. bind_inv Hb. injection Hb as <-.
    exists pd, fd, od, v, v0. simpl. auto.
  - intros H. now apply handlers_no_snapshot in H.
Qed.

Lemma httpx_get_Return (net : network) (n : nat) (u : pyval) (r : response) :
  httpx_get net n u = Return r ->
  exists url, u = VStr url /\ net n url = Responded r.
Proof.
  unfold httpx_get. destruct u as [| | | |url| |]; try discriminate.
  destruct (net n url) as [|r'] eqn:Hn; [discriminate|].
  intros [= <-]. now exists url.
Qed.

Lemma json_Return (r : response) (v : pyval) :
  json r = Return v -> json_body r = Some v.
Proof.
  unfold json. destruct (json_body r); [|discriminate]. congruence.
Qed.

(** The forecast document of a run is the body of the answer to the
    second request. *)
Lemma requests_forecast_data (float_str : float -> str) (net : network)
      (lat lon : float) (pd fd od : pyval) :
  requests float_str net lat lon = Return (pd, fd, od) ->
  exists url r, net 1 url = Responded r /\ json_body r = Some fd.
Proof.
  unfold requests. intros H. bind_inv H. injection H as <- <- <-.
  match goal with
  | E : httpx_get _ 1 _ = Return _ |- _ =>
      apply httpx_get_Return in E; destruct E as (url & _ & Hn)
  end.
  exists url. eexists. split; [exact Hn|]. now apply json_Return.
Qed.

(** C5.  In the snapshot of a fetch that succeeds, the forecast is the
    slice [[:2]] of the periods of the forecast response: it has at most
    two elements, and where the periods are a list, whatever its length,
    it is the list of its first two elements (all of them when there are
    fewer), in their order. *)
Theorem forecast_is_first_two_periods
        (hre : bool) (float_str : float -> str) (net : network)
        (lat lon : float) (snap : WeatherSnapshot) :
  get_weather_data hre float_str net lat lon = Return (Some snap) ->
  exists url r fd fp periods,
    net 1 url = Responded r /\ json_body r = Some fd
    /\ getitem fd "properties" = Return fp
    /\ getitem fp "periods" = Return periods
    /\ slice2 periods = Return (forecast snap)
    /\ (exists n, py_len (forecast snap) = Some n /\ n <= 2)
    /\ forall l, periods = VList l ->
         forecast snap = VList (firstn 2 l)
         /\ length (firstn 2 l) <= 2
         /\ exists rest, l = firstn 2 l ++ rest.
Proof.
  intros H.
  destruct (get_weather_data_success _ _ _ _ _ _ H)
    as (pd & fd & od & loc & cur & Hr & _ & _ & Hf & _).
  destruct (requests_forecast_data _ _ _ _ _ _ _ Hr) as (url & r & Hn & Hj).
  unfold format_forecast in Hf. bind_inv Hf.
  exists url, r, fd, v, v0. repeat split; auto.
  - destruct v0; cbn [slice2] in Hf; try discriminate; injection Hf as <-;
      eexists; (split; [reflexivity|]); exact (firstn_le_length 2 _).
  - subst v0. cbn [slice2] in Hf. congruence.
  - exact (firstn_le_length 2 _).
  - exists (skipn 2 l). now rewrite firstn_skipn.
Qed.

Set Warnings "-inexact-float".

Lemma forecast_is_first_two_periods_witness :
  exists url r fd fp periods,
    net_with_observation
      (sample_observation (VInt 12) (VInt 60) (VInt 3) (VInt 180)
                          (text "Clear")) 1 url = Responded r
    /\ json_body r = Some fd
    /\ getitem fd "properties" = Return fp
    /\ getitem fp "periods" = Return periods
    /\ slice2 periods
       = Return (forecast (sample_snapshot (VFloat 53.6) (VInt 12) (VInt 60)
                             (VFloat 6.711) (VInt 180) (text "Clear")))
    /\ (exists n,
          py_len (forecast (sample_snapshot (VFloat 53.6) (VInt 12) (VInt 60)
                              (VFloat 6.711) (VInt 180) (text "Clear")))
          = Some n /\ n <= 2)
    /\ forall l, periods = VList l ->
         forecast (sample_snapshot (VFloat 53.6) (VInt 12) (VInt 60)
                     (VFloat 6.711) (VInt 180) (text "Clear"))
         = VList (firstn 2 l)
         /\ length (firstn 2 l) <= 2
         /\ exists rest, l = firstn 2 l ++ rest.
Proof.
  apply (forecast_is_first_two_periods true sample_float_str
           (net_with_observation
              (sample_observation (VInt 12) (VInt 60) (VInt 3) (VInt 180)
                                  (text "Clear")))
           LAT LON).
  reflexivity.
Defined.

Set Warnings "inexact-float".

(** C2, as it holds.  When the three other documents of a run are
    complete: an observation whose leaf fields are all there gives a
    snapshot that carries them, and a leaf whose reading is [None] is
    [None] in the snapshot (also after conversion); an observation in
    which the key of a leaf field is missing, or the key ["value"] under
    it, gives no snapshot, like a missing structural key. *)
Theorem null_leaf_is_None_missing_leaf_aborts
        (hre : bool) (float_str : float -> str) (net : network)
        (lat lon : float) (pd fd od o fc : pyval) (loc : Location) :
  requests float_str net lat lon = Return (pd, fd, od) ->
  format_location pd lat lon = Return loc ->
  format_forecast fd = Return fc ->
  getitem od "properties" = Return o ->
  (forall ts t tv h hv w wv d dv desc tf wm : pyval,
      getitem o "timestamp" = Return ts ->
      getitem o "temperature" = Return t -> getitem t "value" = Return tv ->
      getitem o "relativeHumidity" = Return h -> getitem h "value" = Return hv ->
      getitem o "windSpeed" = Return w -> getitem w "value" = Return wv ->
      getitem o "windDirection" = Return d -> getitem d "value" = Return dv ->
      getitem o "textDescription" = Return desc ->
      _celsius_to_fahrenheit tv = Return tf ->
      _ms_to_mph wv = Return wm ->
      get_weather_data hre float_str net lat lon
      = Return (Some {| location := loc;
                        current_conditions := {|
                          timestamp := ts;
                          temperature_f := tf;
                          temperature_c := tv;
                          humidity := hv;
                          wind_speed_mph := wm;
                          wind_direction := dv;
                          description := desc |};
                        forecast := fc |})
      /\ (tv = VNone -> tf = VNone)
      /\ (wv = VNone -> wm = VNone))
  /\ (forall (k : string) (e : exn),
        In k leaf_keys -> getitem o k = Raise e ->
        forall snap,
          get_weather_data hre float_str net lat lon <> Return (Some snap))
  /\ (forall (k : string) (leaf : pyval) (e : exn),
        In k valued_leaf_keys ->
        getitem o k = Return leaf -> getitem leaf "value" = Raise e ->
        forall snap,
          get_weather_data hre float_str net lat lon <> Return (Some snap)).
Proof.
  intros Hr Hloc Hfc Ho. split; [|split].
  - intros ts t tv h hv w wv d dv desc tf wm
           Hts Ht Htv Hh Hhv Hw Hwv Hd Hdv Hdesc Htf Hwm.
    split; [|split].
    + unfold get_weather_data, fetch_body. rewrite Hr. cbn [bind].
      rewrite Hloc. cbn [bind]. unfold format_current_conditions.
      repeat (first [ rewrite Ho | rewrite Hts | rewrite Ht | rewrite Htv
                    | rewrite Hh | rewrite Hhv | rewrite Hw | rewrite Hwv
                    | rewrite Hd | rewrite Hdv | rewrite Hdesc
                    | rewrite Htf | rewrite Hwm ]; cbn [bind]).
      rewrite Hfc. reflexivity.
    + intros ->. simpl in Htf. congruence.
    + intros ->. simpl in Hwm. congruence.
  - intros k e Hk He snap H.
    destruct (get_weather_data_success _ _ _ _ _ _ H)
      as (pd' & fd' & od' & loc' & cur & Hr' & _ & Hc & _).
    rewrite Hr in Hr'. injection Hr' as <- <- <-.
    unfold format_current_conditions in Hc. bind_inv Hc.
    simpl in Hk.
    destruct Hk as [<-|[<-|[<-|[<-|[<-|[]]]]]]; congruence.
  - intros k leaf e Hk Hl He snap H.
    destruct (get_weather_data_success _ _ _ _ _ _ H)
      as (pd' & fd' & od' & loc' & cur & Hr' & _ & Hc & _).
    rewrite Hr in Hr'. injection Hr' as <- <- <-.
    unfold format_current_conditions in Hc. bind_inv Hc.
    simpl in Hk.
    destruct Hk as [<-|[<-|[<-|[<-|[]]]]]; congruence.
Qed.

Lemma null_leaf_is_None_missing_leaf_aborts_witness :
  get_weather_data true sample_float_str
    (net_with_observation (sample_observation VNone VNone VNone VNone VNone))
    LAT LON
  = Return (Some (sample_snapshot VNone VNone VNone VNone VNone VNone)).
Proof.
  refine (proj1 (proj1
    (null_leaf_is_None_missing_leaf_aborts true sample_float_str
       (net_with_observation
          (sample_observation VNone VNone VNone VNone VNone))
       LAT LON _ _ _ _ _ _ eq_refl eq_refl eq_refl eq_refl)
    _ _ VNone _ VNone _ VNone _ VNone VNone VNone VNone
    eq_refl eq_refl eq_refl eq_refl eq_refl eq_refl eq_refl eq_refl
    eq_refl eq_refl eq_refl eq_refl)).
Defined.

(** C2, as stated, fails: a latest observation without the key
    ["textDescription"], beside three complete documents, gives no
    snapshot. *)
Lemma missing_description_aborts :
  get_weather_data true sample_float_str
    (net_with_observation observation_without_description) LAT LON
  = Return None
  /\ get_weather_data false sample_float_str
       (net_with_observation observation_without_description) LAT LON
     = Raise AttributeError.
Proof.
  split; reflexivity.
Qed.

(** Without the handler class, whatever the [try] block raises ends as
    an [AttributeError] of the first [except] clause. *)
Lemma without_handler_class (float_str : float -> str) (net : network)
      (lat lon : float) (e : exn) :
  fetch_body float_str net lat lon = Raise e ->
  get_weather_data false float_str net lat lon = Raise AttributeError.
Proof.
  intros H. unfold get_weather_data. now rewrite H.
Qed.

(** C1.  The client is written to turn a transport failure, an error
    status, a missing key, an empty feature list and a body that is not
    JSON into [None], and does not: its first handler names
    [httpx.exceptions.RequestException], which [httpx] does not define,
    so in the program as it runs each of these failures leaves
    [get_weather_data] as an [AttributeError], and no fetch returns
    [None]. *)
Theorem fetch_failure_leaves_client :
  get_weather_data false sample_float_str net_without_station LAT LON
  = Raise AttributeError
  /\ get_weather_data false sample_float_str
       (serve ConnectionFailed (ok sample_forecast_data)
              (ok (sample_stations_data [sample_station]))
              (ok (sample_observation VNone VNone VNone VNone VNone)))
       LAT LON
     = Raise AttributeError
  /\ get_weather_data false sample_float_str
       (serve (ok sample_point_data)
              (Responded {| status_code := 503; json_body := None |})
              (ok (sample_stations_data [sample_station]))
              (ok (sample_observation VNone VNone VNone VNone VNone)))
       LAT LON
     = Raise AttributeError
  /\ get_weather_data false sample_float_str
       (serve (ok sample_point_data) (ok sample_forecast_data)
              (Responded {| status_code := 200; json_body := None |})
              (ok (sample_observation VNone VNone VNone VNone VNone)))
       LAT LON
     = Raise AttributeError
  /\ get_weather_data false sample_float_str
       (serve (ok sample_point_data) (ok (VDict []))
              (ok (sample_stations_data [sample_station]))
              (ok (sample_observation VNone VNone VNone VNone VNone)))
       LAT LON
     = Raise AttributeError
  /\ forall (float_str : float -> str) (net : network) (lat lon : float),
       get_weather_data false float_str net lat lon <> Return None.
Proof.
  repeat (split; [reflexivity|]).
  intros float_str net lat lon. unfold get_weather_data.
  destruct (fetch_body float_str net lat lon); discriminate.
Qed.

(** ** The script body *)

(** How [main] ends: with the world it started in when the fetch gives
    no snapshot; with the file field as it was, or with the record of
    the run in it. *)
Lemma main_outcomes
      (has_RequestException : bool) (float_str : float -> str)
      (net : network) (PROMPT local_time : str)
      (model : str -> list str -> result str) (w : World) :
  ((forall snap,
       get_weather_data has_RequestException float_str net LAT LON
       <> Return (Some snap)) ->
   fst (main has_RequestException float_str net PROMPT local_time model w)
   = w)
  /\ (weather_report_json
        (fst (main has_RequestException float_str net PROMPT local_time
                   model w))
      = weather_report_json w
      \/ exists data forecasts response,
           get_weather_data has_RequestException float_str net LAT LON
           = Return (Some data)
           /\ compose PROMPT local_time data = Return forecasts
           /\ model forecasts attachments = Return response
           /\ main has_RequestException float_str net PROMPT local_time
                   model w
              = ({| weather_report_json :=
                      Some {| forecast_data := data;
                              weather_report := fst (extract response);
                              color_code := snd (extract response);
                              timestamp_ := local_time |};
                    generation_calls :=
                      (forecasts, attachments) :: generation_calls w |},
                 Return tt)).
Proof.
  unfold main.
  destruct (get_weather_data has_RequestException float_str net LAT LON)
    as [[data|]|e] eqn:Hg; split; auto.
  - intros H. now destruct (H data).
  - destruct (compose PROMPT local_time data) as [forecasts|e] eqn:Hc; auto.
    destruct (model forecasts attachments) as [response|e] eqn:Hm; auto.
    right. exists data, forecasts, response.
    split; [reflexivity | split; [exact Hc | split; [exact Hm|]]].
    now destruct (extract response).
Qed.

(** C4, as it holds.  A run whose fetch gives no snapshot, because it
    returned [None] or because an exception left it, does not call the
    generation service and leaves [weather_report.json] as it was,
    whatever the disk would do.  In every run the file is left as it
    was, or holds the whole text of the record of the run (the snapshot,
    the report and the colour code extracted from the model's text, the
    local time), or, when the write fails after the file was opened,
    holds the first characters of that text only. *)
Theorem failed_fetch_leaves_file
        (has_RequestException : bool) (float_str : float -> str)
        (net : network) (PROMPT local_time : str)
        (model : str -> list str -> result str)
        (dumps : OutputRecord -> str) (disk : write_outcome)
        (old : option str) (calls : list (str * list str)) :
  ((forall snap,
       get_weather_data has_RequestException float_str net LAT LON
       <> Return (Some snap)) ->
   fst (run has_RequestException float_str net PROMPT local_time model
            dumps disk old calls)
   = (old, calls))
  /\ (fst (fst (run has_RequestException float_str net PROMPT local_time
                    model dumps disk old calls)) = old
      \/ exists data forecasts response,
           get_weather_data has_RequestException float_str net LAT LON
           = Return (Some data)
           /\ compose PROMPT local_time data = Return forecasts
           /\ model forecasts attachments = Return response
           /\ (run has_RequestException float_str net PROMPT local_time
                   model dumps disk old calls
               = (Some (dumps {| forecast_data := data;
                                 weather_report := fst (extract response);
                                 color_code := snd (extract response);
                                 timestamp_ := local_time |}),
                  (forecasts, attachments) :: calls, Return tt)
               \/ exists k,
                    disk = Cut k
                    /\ run has_RequestException float_str net PROMPT
                           local_time model dumps disk old calls
                       = (Some (firstn k
                                  (dumps
                                     {| forecast_data := data;
                                        weather_report :=
                                          fst (extract response);
                                        color_code := snd (extract response);
                                        timestamp_ := local_time |})),
                          (forecasts, attachments) :: calls,
                          Raise OSError))).
Proof.
  unfold run.
  destruct (main_outcomes has_RequestException float_str net PROMPT
              local_time model
              {| weather_report_json := None; generation_calls := calls |})
    as [Hfail Hany].
  split.
  - intros H. specialize (Hfail H).
    destruct (main has_RequestException float_str net PROMPT local_time
                   model
                   {| weather_report_json := None;
                      generation_calls := calls |}) as [w r].
    simpl in Hfail. subst w. reflexivity.
  - destruct Hany as [Hnone | (data & forecasts & response
                                 & Hg & Hc & Hm & Hmain)].
    + destruct (main has_RequestException float_str net PROMPT local_time
                     model
                     {| weather_report_json := None;
                        generation_calls := calls |}) as [w r].
      simpl in Hnone. rewrite Hnone. now left.
    + rewrite Hmain. cbn [weather_report_json generation_calls].
      unfold write_report. destruct disk as [| |k].
      * right. exists data, forecasts, response.
        repeat (split; [assumption|]). now left.
      * now left.
      * right. exists data, forecasts, response.
        repeat (split; [assumption|]). right. now exists k.
Qed.

Lemma failed_fetch_leaves_file_witness :
  fst (run false sample_float_str net_without_station sample_PROMPT
           sample_time sample_model sample_dumps (Cut 3)
           (Some (lit "{ weather_report: Rain all day. }")) [])
  = (Some (lit "{ weather_report: Rain all day. }"), []).
Proof.
  apply (proj1 (failed_fetch_leaves_file false sample_float_str
                  net_without_station sample_PROMPT sample_time
                  sample_model sample_dumps (Cut 3)
                  (Some (lit "{ weather_report: Rain all day. }")) [])).
  intros snap H. vm_compute in H. discriminate.
Defined.

(** C4, as stated, fails in its last part: when the write fails after
    the file was opened, the file is neither as it was nor a whole
    record. *)
Lemma cut_write_leaves_part :
  run false sample_float_str
      (net_with_observation
         (sample_observation VNone VNone VNone VNone VNone))
      sample_PROMPT sample_time sample_model sample_dumps (Cut 3)
      (Some (lit "{ weather_report: Rain all day. }")) []
  = (Some (lit "{ w"),
     [(prompt_text sample_PROMPT sample_time
         [ (lit "Today", lit "Sunny, with a high near 61.");
           (lit "Tonight", lit "Mostly clear, with a low around 44.") ],
       attachments)],
     Raise OSError)
  /\ ~ whole_record_or_nothing.
Proof.
  split; [reflexivity|]. intros H.
  destruct (H false sample_float_str
              (net_with_observation
                 (sample_observation VNone VNone VNone VNone VNone))
              sample_PROMPT sample_time sample_model sample_dumps (Cut 3)
              (Some (lit "{ weather_report: Rain all day. }")) [])
    as [H1 | (record & H1)].
  - vm_compute in H1. discriminate.
  - change (Some (lit "{ w") = Some (sample_dumps record)) in H1.
    unfold sample_dumps in H1. simpl in H1. discriminate.
Qed.

(** ** Sample runs *)

Set Warnings "-inexact-float".

Example extract_spec_example :
  extract (lit "Sunny and bright. #1E90FF")
  = (lit "Sunny and bright.", Some (lit "#1E90FF")).
Proof. reflexivity. Qed.

(** Without a match the report is the text, stripped, and there is no
    colour code. *)
Lemma extract_without_code (raw : str) :
  re_search raw = None -> extract raw = (strip raw, None).
Proof.
  intros H. unfold extract. now rewrite H.
Qed.

Example extract_no_code :
  extract (lit "  No colour today, only #12 and #abcd.  ")
  = (lit "No colour today, only #12 and #abcd.", None).
Proof. reflexivity. Qed.

Example extract_same_code_twice :
  extract (lit "#fff then #fff") = (lit "then", Some (lit "#fff")).
Proof. reflexivity. Qed.

Example extract_removes_earlier_copy :
  extract (lit "#abcd #abc") = (lit "d", Some (lit "#abc")).
Proof. reflexivity. Qed.

Example int_true_divide_examples :
  int_true_divide 333 5 = Return 66.6%float
  /\ int_true_divide (-9) 5 = Return (-1.8)%float
  /\ int_true_divide (9 * 10 ^ 400) 5 = Raise OverflowError.
Proof. repeat split; reflexivity. Qed.

(** Where the listed errors come from. *)
Lemma where_listed_errors_arise :
  (forall (net : network) (n : nat) (u : str),
      net n u = ConnectionFailed ->
      httpx_get net n (VStr u) = Raise RequestError)
  /\ (forall r : response,
        ((200 <=? status_code r) && (status_code r <? 300))%Z = false ->
        raise_for_status r = Raise HTTPStatusError)
  /\ (forall r : response,
        json_body r = None -> json r = Raise JSONDecodeError)
  /\ (forall (d : list (str * pyval)) (k : string),
        lookup (lit k) d = None -> getitem (VDict d) k = Raise KeyError)
  /\ getitem0 (VList []) = Raise IndexError.
Proof.
  repeat split.
  - intros net n u H. unfold httpx_get. now rewrite H.
  - intros r H. unfold raise_for_status. now rewrite H.
  - intros r H. unfold json. now rewrite H.
  - intros d k H. unfold getitem. now rewrite H.
Qed.

(** A complete run of the client. *)
Example sample_fetch :
  get_weather_data false sample_float_str
    (net_with_observation
       (sample_observation (VInt 12) (VFloat 60.5) (VFloat 3.6) VNone
                           (text "Clear")))
    LAT LON
  = Return (Some (sample_snapshot (VFloat 53.6) (VInt 12) (VFloat 60.5)
                    (VFloat 8.0532) VNone (text "Clear"))).
Proof. reflexivity. Qed.

(** A complete run of the script: one call of the generation service,
    one record written over the previous one. *)
Example sample_main :
  let w := main false sample_float_str
                (net_with_observation
                   (sample_observation (VInt 12) (VInt 60) (VInt 3)
                                       (VInt 180) (text "Clear")))
                sample_PROMPT sample_time sample_model
                {| weather_report_json := None; generation_calls := [] |} in
  snd w = Return tt
  /\ length (generation_calls (fst w)) = 1
  /\ option_map weather_report (weather_report_json (fst w))
     = Some (lit "Grey and still.")
  /\ option_map color_code (weather_report_json (fst w))
     = Some (Some (lit "#778899"))
  /\ option_map timestamp_ (weather_report_json (fst w))
     = Some sample_time.
Proof. repeat split; reflexivity. Qed.

(** The same run on a disk that stores the text, and on one that
    refuses to open the file. *)
Example sample_run :
  run false sample_float_str
      (net_with_observation
         (sample_observation (VInt 12) (VInt 60) (VInt 3) (VInt 180)
                             (text "Clear")))
      sample_PROMPT sample_time sample_model sample_dumps Stored None []
  = (Some (lit "{ weather_report: Grey and still. }"),
     [(prompt_text sample_PROMPT sample_time
         [ (lit "Today", lit "Sunny, with a high near 61.");
           (lit "Tonight", lit "Mostly clear, with a low around 44.") ],
       attachments)],
     Return tt)
  /\ fst (fst (run false sample_float_str
                   (net_with_observation
                      (sample_observation (VInt 12) (VInt 60) (VInt 3)
                                          (VInt 180) (text "Clear")))
                   sample_PROMPT sample_time sample_model sample_dumps
                   Refused None []))
     = None.
Proof. split; reflexivity. Qed.

Set Warnings "inexact-float".

(** * Further properties *)

Set Warnings "-inexact-float".

(** ** The colour pattern and the extractor *)

Lemma match_here_code (ds rest : str) :
  forallb is_hex ds = true -> (length ds = 3 \/ length ds = 6) ->
  opt_word (hd_error rest) = false ->
  match_here ("#"%char :: ds ++ rest) = Some (S (length ds)).
Proof.
  intros Hds L Hb.
  assert (Hrest : hex3 rest = None).
  { destruct rest as [|x [|y [|z t]]]; try reflexivity.
    simpl in Hb. simpl. destruct (is_hex x) eqn:Hx; [|reflexivity].
    apply hex_is_word in Hx. congruence. }
  destruct L as [L|L].
  - destruct ds as [|a [|b [|c [|? ?]]]]; try discriminate.
    simpl in Hds. rewrite !andb_true_iff in Hds.
    destruct Hds as (Ha & Hb' & Hc & _).
    unfold match_here. simpl app. rewrite Ascii.eqb_refl.
    cbn [hex3]. rewrite Ha, Hb', Hc. cbn [andb].
    rewrite Hrest, (boundary_after_hex _ _ Hc), Hb. reflexivity.
  - destruct ds as [|a [|b [|c [|d [|e [|f [|? ?]]]]]]]; try discriminate.
    simpl in Hds. rewrite !andb_true_iff in Hds.
    destruct Hds as (Ha & Hb' & Hc & Hd & He & Hf & _).
    unfold match_here. simpl app. rewrite Ascii.eqb_refl.
    cbn [hex3]. rewrite Ha, Hb', Hc. cbn [andb hex3].
    rewrite Hd, He, Hf. cbn [andb].
    rewrite (boundary_after_hex _ _ Hf), Hb. reflexivity.
Qed.

Lemma search_from_none (s : str) :
  forall i, search_from i s = None <->
            forall k, match_here (skipn k s) = None.
Proof.
  induction s as [|c t IH]; intros i; cbn [search_from].
  - split; [|reflexivity]. intros _ k. now destruct k.
  - destruct (match_here (c :: t)) as [n|] eqn:Hm.
    + split; [discriminate|]. intros H. specialize (H 0).
      cbn [skipn] in H. congruence.
    + rewrite IH. split.
      * intros H [|k]; [exact Hm | apply H].
      * intros H k. apply (H (S k)).
Qed.

Lemma search_from_no_hash (s : str) :
  ~ In "#"%char s -> forall i, search_from i s = None.
Proof.
  intros Hno i. apply search_from_none. intros k.
  destruct (skipn k s) as [|c t] eqn:E; [reflexivity|].
  unfold match_here. destruct (Ascii.eqb c "#") eqn:Hc; [|reflexivity].
  apply Ascii.eqb_eq in Hc. subst c. exfalso. apply Hno.
  rewrite <- (firstn_skipn k s), E. apply in_or_app. right. now left.
Qed.

(** X1.  The pattern accepts every colour code in place: ['#'] and
    three or six hexadecimal digits, of either case, followed by the end
    of the text or by a character that is no word character, is matched
    where it stands, with all its digits. *)
Theorem color_code_is_matched (ds rest : str) :
  forallb is_hex ds = true -> (length ds = 3 \/ length ds = 6) ->
  opt_word (hd_error rest) = false ->
  match_here ("#"%char :: ds ++ rest) = Some (S (length ds))
  /\ re_search ("#"%char :: ds ++ rest) = Some (0, "#"%char :: ds).
Proof.
  intros Hds L Hb. pose proof (match_here_code _ _ Hds L Hb) as Hm.
  split; [exact Hm|].
  unfold re_search. cbn [search_from]. rewrite Hm. f_equal. f_equal.
  change ("#"%char :: ds ++ rest) with (("#"%char :: ds) ++ rest).
  change (S (length ds)) with (length ("#"%char :: ds)).
  rewrite firstn_app, Nat.sub_diag, firstn_all. simpl. now rewrite app_nil_r.
Qed.

Lemma color_code_is_matched_witness :
  match_here (lit "#1E90ff, a blue") = Some 7
  /\ re_search (lit "#1E90ff, a blue") = Some (0, lit "#1E90ff").
Proof.
  apply (color_code_is_matched (lit "1E90ff") (lit ", a blue"));
    [reflexivity | now right | reflexivity].
Defined.

(** X2.  The extractor returns no colour code exactly when the pattern
    matches at no position of the text. *)
Theorem no_code_iff_no_match (raw : str) :
  snd (extract raw) = None <-> forall k, match_here (skipn k raw) = None.
Proof.
  unfold extract. cbn [snd]. rewrite <- (search_from_none raw 0).
  unfold re_search. destruct (search_from 0 raw) as [[j g]|]; simpl;
    split; congruence.
Qed.

(** X3.  The colour code the extractor returns is the leftmost match:
    the text splits around it and the pattern matches at no position
    before it. *)
Theorem code_is_leftmost_match (raw c : str) :
  snd (extract raw) = Some c ->
  exists pre rest,
    raw = pre ++ c ++ rest
    /\ match_here (c ++ rest) = Some (length c)
    /\ forall k, k < length pre -> match_here (skipn k raw) = None.
Proof.
  intros H. destruct (extract_code _ _ H) as (j & Hs).
  destruct (search_from_inv _ _ _ _ Hs) as (pre & rest & E & _ & Hm & Hk).
  now exists pre, rest.
Qed.

Lemma code_is_leftmost_match_witness :
  exists pre rest,
    lit "#12345 #abcd then #0a0." = pre ++ lit "#0a0" ++ rest
    /\ match_here (lit "#0a0" ++ rest) = Some (length (lit "#0a0"))
    /\ forall k, k < length pre ->
                 match_here (skipn k (lit "#12345 #abcd then #0a0.")) = None.
Proof.
  apply (code_is_leftmost_match (lit "#12345 #abcd then #0a0.") (lit "#0a0")).
  reflexivity.
Defined.

(** X4.  A text without ['#'] has no colour code, and its report is the
    text stripped. *)
Theorem text_without_hash (raw : str) :
  ~ In "#"%char raw -> extract raw = (strip raw, None).
Proof.
  intros H. unfold extract, re_search.
  now rewrite (search_from_no_hash raw H 0).
Qed.

Lemma text_without_hash_witness :
  extract (lit "  A pale sky over the harbour.  ")
  = (lit "A pale sky over the harbour.", None).
Proof.
  apply (text_without_hash (lit "  A pale sky over the harbour.  ")).
  intros H. simpl in H.
  repeat (destruct H as [H|H]; [discriminate|]). exact H.
Defined.

Lemma no_hash_no_code_inside (ds s : str) :
  ~ In "#"%char s -> contains ("#"%char :: ds) s = false.
Proof.
  intros H. destruct (contains ("#"%char :: ds) s) eqn:E; [|reflexivity].
  now apply contains_head_in in E.
Qed.

Lemma search_from_skip (body s : str) :
  ~ In "#"%char body ->
  forall i, search_from i (body ++ s) = search_from (i + length body) s.
Proof.
  induction body as [|b body IH]; intros Hno i; simpl app.
  - simpl. now rewrite Nat.add_0_r.
  - cbn [search_from].
    assert (Hb : match_here (b :: body ++ s) = None).
    { unfold match_here. destruct (Ascii.eqb b "#") eqn:E; [|reflexivity].
      apply Ascii.eqb_eq in E. subst b. exfalso. apply Hno. now left. }
    rewrite Hb, IH.
    + f_equal. simpl. lia.
    + intros H. apply Hno. now right.
Qed.

Lemma find_from_skip (ds body s : str) :
  ~ In "#"%char body ->
  forall i,
    find_from i ("#"%char :: ds) (body ++ ("#"%char :: ds) ++ s)
    = Some (i + length body).
Proof.
  induction body as [|b body IH]; intros Hno i; simpl app.
  - change ("#"%char :: ds ++ s) with (("#"%char :: ds) ++ s).
    destruct (("#"%char :: ds) ++ s) eqn:E; [discriminate|].
    cbn [find_from]. rewrite <- E, starts_with_self. f_equal. simpl. lia.
  - cbn [find_from].
    assert (Hb : starts_with ("#"%char :: ds)
                   (b :: body ++ "#"%char :: ds ++ s) = false).
    { cbn [starts_with]. destruct (Ascii.eqb "#" b) eqn:E; [|reflexivity].
      apply Ascii.eqb_eq in E. subst b. exfalso. apply Hno. now left. }
    rewrite Hb.
    change (body ++ "#"%char :: ds ++ s)
      with (body ++ ("#"%char :: ds) ++ s).
    rewrite IH.
    + f_equal. simpl. lia.
    + intros H. apply Hno. now right.
Qed.

(** X5.  A colour code that stands in text without any other ['#'], and
    is followed by the end of the text or by a character that is no word
    character, is the code returned; the report is the text without the
    code, stripped. *)
Theorem code_among_plain_text (body c tail : str) :
  ~ In "#"%char body -> ~ In "#"%char tail ->
  is_color_code c -> opt_word (hd_error tail) = false ->
  extract (body ++ c ++ tail) = (strip (body ++ tail), Some c).
Proof.
  intros Hbody Htail (ds & -> & Hds & L) Hb.
  assert (Hs : re_search (body ++ ("#"%char :: ds) ++ tail)
               = Some (length body, "#"%char :: ds)).
  { unfold re_search. rewrite (search_from_skip body _ Hbody 0).
    cbn [search_from app].
    rewrite (match_here_code _ _ Hds L Hb). f_equal. f_equal.
    change ("#"%char :: ds ++ tail) with (("#"%char :: ds) ++ tail).
    change (S (length ds)) with (length ("#"%char :: ds)).
    rewrite firstn_app, Nat.sub_diag, firstn_all. simpl.
    now rewrite app_nil_r. }
  rewrite (extract_found _ _ _ Hs). f_equal. f_equal.
  rewrite (replace_scan_first ("#"%char :: ds) [] tail) with (i := 0).
  - simpl app. f_equal. apply replace_scan_none.
    now apply no_hash_no_code_inside.
  - discriminate.
  - apply le_n.
  - apply (find_from_skip ds body tail Hbody 0).
Qed.

Lemma code_among_plain_text_witness :
  extract (lit "Sunny and bright. #1E90FF" ++ ["010"%char])
  = (lit "Sunny and bright.", Some (lit "#1E90FF")).
Proof.
  apply (code_among_plain_text (lit "Sunny and bright. ") (lit "#1E90FF")
           ["010"%char]).
  - intros H. simpl in H.
    repeat (destruct H as [H|H]; [discriminate|]). exact H.
  - intros H. simpl in H.
    repeat (destruct H as [H|H]; [discriminate|]). exact H.
  - exists (lit "1E90FF"). repeat split. now right.
  - reflexivity.
Defined.

Lemma lstrip_head (s : str) : opt_space (hd_error (lstrip s)) = false.
Proof.
  induction s as [|c t IH]; [reflexivity|].
  simpl. destruct (is_space c) eqn:E; [exact IH|]. simpl. exact E.
Qed.

Lemma lstrip_suffix (s : str) : exists ws, s = ws ++ lstrip s.
Proof.
  induction s as [|c t (ws & IH)].
  - now exists [].
  - simpl. destruct (is_space c).
    + exists (c :: ws). simpl. now rewrite <- IH.
    + now exists [].
Qed.

Lemma length_lstrip (s : str) : length (lstrip s) <= length s.
Proof.
  destruct (lstrip_suffix s) as (ws & E). rewrite E at 2.
  rewrite length_app. lia.
Qed.

Lemma length_strip (s : str) : length (strip s) <= length s.
Proof.
  unfold strip, rstrip. rewrite length_rev.
  etransitivity; [apply length_lstrip|]. rewrite length_rev.
  apply length_lstrip.
Qed.

Lemma strip_ends (s : str) :
  opt_space (hd_error (strip s)) = false
  /\ opt_space (hd_error (rev (strip s))) = false.
Proof.
  unfold strip, rstrip. split.
  - destruct (lstrip_suffix (rev (lstrip s))) as (ws & E).
    pose proof (lstrip_head s) as Hh.
    apply (f_equal (@rev ascii)) in E.
    rewrite rev_involutive, rev_app_distr in E.
    destruct (rev (lstrip (rev (lstrip s)))) as [|x v]; [reflexivity|].
    rewrite E in Hh. exact Hh.
  - rewrite rev_involutive. apply lstrip_head.
Qed.

Lemma extract_is_strip (raw : str) : exists x, fst (extract raw) = strip x.
Proof.
  unfold extract. cbn [fst]. eexists. reflexivity.
Qed.

(** X6.  The report never begins and never ends with white space. *)
Theorem report_has_no_outer_space (raw : str) :
  opt_space (hd_error (fst (extract raw))) = false
  /\ opt_space (hd_error (rev (fst (extract raw)))) = false.
Proof.
  destruct (extract_is_strip raw) as (x & ->). apply strip_ends.
Qed.

Lemma length_join (sep p : str) (ps : list str) :
  length (join sep (p :: ps))
  = length (join [] (p :: ps)) + length sep * length ps.
Proof.
  simpl. rewrite !length_app. induction ps as [|q ps IH]; simpl.
  - lia.
  - rewrite !length_app. lia.
Qed.

Lemma extract_pieces (raw c : str) :
  snd (extract raw) = Some c ->
  exists p ps,
    ps <> [] /\ raw = join c (p :: ps)
    /\ fst (extract raw) = strip (join [] (p :: ps)).
Proof.
  intros H. destruct (extract_code _ _ H) as (j & Hs).
  pose proof (color_code_not_empty _ (search_code_shape _ _ _ Hs)) as Hne.
  destruct (replace_scan_pieces c [] Hne (length raw) raw (le_n _))
    as (p & ps & E & F & R).
  exists p, ps. split; [|split]; auto.
  - intros ->. simpl in E. rewrite app_nil_r in E. subst p.
    destruct (search_from_inv _ _ _ _ Hs) as (pre & rest & E & _).
    apply Forall_inv in F. rewrite E, contains_app in F. discriminate.
  - rewrite (extract_found _ _ _ Hs). simpl fst. now rewrite R.
Qed.

(** X7.  The report is never longer than the text, and when a colour
    code is returned it is shorter by the length of the code at least. *)
Theorem report_is_shorter (raw : str) :
  length (fst (extract raw)) <= length raw
  /\ forall c, snd (extract raw) = Some c ->
               length (fst (extract raw)) + length c <= length raw.
Proof.
  assert (Hc : forall c, snd (extract raw) = Some c ->
                         length (fst (extract raw)) + length c <= length raw).
  { intros c H. destruct (extract_pieces _ _ H) as (p & ps & Hps & E & ->).
    pose proof (length_strip (join [] (p :: ps))) as Hl.
    rewrite E, length_join.
    destruct ps as [|q ps]; [congruence|]. simpl length in *. nia. }
  split; [|exact Hc].
  destruct (snd (extract raw)) as [c|] eqn:E.
  - specialize (Hc c eq_refl). lia.
  - unfold extract in *. cbn [fst snd] in *.
    destruct (re_search raw) as [[j g]|]; [discriminate|].
    apply length_strip.
Qed.

(** ** The prompt *)

Lemma py_add_str_inv (x : str) (v a : pyval) :
  py_add (VStr x) v = Return a ->
  exists n, v = VStr n /\ a = VStr (x ++ n).
Proof.
  destruct v; simpl; try discriminate.
  intros [= <-]. now exists s.
Qed.

Lemma add_period_inv (f0 f : str) (p : pyval) :
  add_period f0 p = Return f ->
  exists nd, named_period p nd /\ f = f0 ++ period_line nd.
Proof.
  unfold add_period. intros H. bind_inv H.
  apply py_add_str_inv in E0. destruct E0 as (n & -> & ->).
  apply py_add_str_inv in E1. destruct E1 as (c & [= <-] & ->).
  apply py_add_str_inv in E3. destruct E3 as (d & -> & ->).
  injection H as <-. exists (n, d). split; [now split|].
  unfold period_line. simpl fst. simpl snd.
  repeat (rewrite <- ?app_assoc; simpl). reflexivity.
Qed.

Lemma add_period_ok (f0 : str) (p : pyval) (nd : str * str) :
  named_period p nd -> add_period f0 p = Return (f0 ++ period_line nd).
Proof.
  intros [Hn Hd]. unfold add_period. rewrite Hn. cbn [bind py_add as_num].
  rewrite Hd. cbn [bind py_add as_num]. f_equal.
  unfold period_line. repeat (rewrite <- ?app_assoc; simpl). reflexivity.
Qed.

Lemma add_periods_inv (periods : list pyval) :
  forall f0 f,
    add_periods f0 periods = Return f ->
    exists nds, Forall2 named_period periods nds
                /\ f = f0 ++ flat_map period_line nds.
Proof.
  induction periods as [|p periods IH]; intros f0 f; cbn [add_periods].
  - intros [= <-]. exists []. split; [constructor|].
    simpl. now rewrite app_nil_r.
  - intros H. apply bind_Return in H. destruct H as (f1 & H1 & H).
    destruct (add_period_inv _ _ _ H1) as (nd & Hp & ->).
    destruct (IH _ _ H) as (nds & Hps & ->).
    exists (nd :: nds). split; [now constructor|].
    simpl. now rewrite <- app_assoc.
Qed.

Lemma add_periods_ok (periods : list pyval) (nds : list (str * str)) :
  Forall2 named_period periods nds ->
  forall f0, add_periods f0 periods
             = Return (f0 ++ flat_map period_line nds).
Proof.
  induction 1 as [|p nd periods nds Hp _ IH]; intros f0; cbn [add_periods].
  - simpl. now rewrite app_nil_r.
  - rewrite (add_period_ok f0 p nd Hp). cbn [bind]. rewrite IH.
    simpl. now rewrite <- app_assoc.
Qed.

(** X8.  The prompt is composed exactly when every period of the
    snapshot has a name and a detailed forecast that are [str]; it is
    then the fixed first line, one line [" - name: forecast"] per period
    in their order, the local time, and [PROMPT] at the end.  A snapshot
    without periods gives a prompt without period lines. *)
Theorem compose_gives_prompt_text
        (PROMPT local_time : str) (data : WeatherSnapshot) (text : str) :
  compose PROMPT local_time data = Return text <->
  exists periods nds,
    iterate (forecast data) = Return periods
    /\ Forall2 named_period periods nds
    /\ text = prompt_text PROMPT local_time nds.
Proof.
  unfold compose. split.
  - intros H. bind_inv H. injection H as <-.
    destruct (add_periods_inv _ _ _ E0) as (nds & Hps & ->).
    exists v, nds. split; [exact E | split; [exact Hps|]].
    unfold prompt_text, header.
    repeat (rewrite <- ?app_assoc; simpl). reflexivity.
  - intros (periods & nds & Hi & Hps & ->). rewrite Hi. cbn [bind].
    fold header. rewrite (add_periods_ok _ _ Hps). cbn [bind]. f_equal.
    unfold prompt_text.
    repeat (rewrite <- ?app_assoc; simpl). reflexivity.
Qed.

Lemma compose_gives_prompt_text_witness :
  compose sample_PROMPT sample_time
    (sample_snapshot VNone VNone VNone VNone VNone VNone)
  = Return (prompt_text sample_PROMPT sample_time
              [ (lit "Today", lit "Sunny, with a high near 61.");
                (lit "Tonight", lit "Mostly clear, with a low around 44.") ]).
Proof.
  apply (proj2 (compose_gives_prompt_text sample_PROMPT sample_time _ _)).
  eexists. eexists. split; [reflexivity|]. split; [|reflexivity].
  repeat constructor.
Defined.

Lemma add_period_raises (f0 : str) (p : pyval) (e : exn) :
  add_period f0 p = Raise e -> e = KeyError \/ e = TypeError.
Proof.
  assert (Hg : forall k e', getitem p k = Raise e' ->
                            e' = KeyError \/ e' = TypeError).
  { intros k e' H. unfold getitem in H.
    destruct p; try (injection H as <-; now right).
    destruct (lookup _ d); [discriminate | injection H as <-; now left]. }
  unfold add_period.
  destruct (getitem p "name") as [n|e1] eqn:Hn; cbn [bind].
  - destruct n; cbn [py_add as_num bind];
      try (intros [= <-]; now right).
    destruct (getitem p "detailedForecast") as [d|e2] eqn:Hd; cbn [bind].
    + destruct d; cbn [py_add as_num bind]; try discriminate;
        try (intros [= <-]; now right).
    + intros [= <-]. exact (Hg _ _ Hd).
  - intros [= <-]. exact (Hg _ _ Hn).
Qed.

Lemma add_periods_raises (periods : list pyval) :
  forall f0 e, add_periods f0 periods = Raise e ->
               e = KeyError \/ e = TypeError.
Proof.
  induction periods as [|p periods IH]; intros f0 e; cbn [add_periods].
  - discriminate.
  - destruct (add_period f0 p) as [f1|e1] eqn:H1; cbn [bind].
    + apply IH.
    + intros [= <-]. exact (add_period_raises _ _ _ H1).
Qed.

(** X9.  Composing the prompt fails with a [KeyError] or a [TypeError]
    only, the exception of the first period that lacks a key or holds a
    value of another type; a forecast that is a [str] with a character
    in it fails with [TypeError]. *)
Theorem compose_failures
        (PROMPT local_time : str) (data : WeatherSnapshot) :
  (forall e, compose PROMPT local_time data = Raise e ->
             e = KeyError \/ e = TypeError)
  /\ (forall c s, forecast data = VStr (c :: s) ->
                  compose PROMPT local_time data = Raise TypeError).
Proof.
  unfold compose. split.
  - intros e. destruct (iterate (forecast data)) as [periods|e1] eqn:Hi;
      cbn [bind].
    + destruct (add_periods _ periods) as [f|e2] eqn:Ha; cbn [bind];
        [discriminate|].
      intros [= <-]. exact (add_periods_raises _ _ _ Ha).
    + intros [= <-]. right. destruct (forecast data); simpl in Hi;
        congruence.
  - intros c s ->. reflexivity.
Qed.

Lemma compose_failures_witness :
  compose sample_PROMPT sample_time
    (sample_snapshot VNone VNone VNone VNone VNone VNone)
  <> Raise OverflowError
  /\ compose sample_PROMPT sample_time
       {| location := location
                        (sample_snapshot VNone VNone VNone VNone VNone VNone);
          current_conditions :=
            current_conditions
              (sample_snapshot VNone VNone VNone VNone VNone VNone);
          forecast := VStr (lit "To") |}
     = Raise TypeError.
Proof.
  split.
  - intros H.
    destruct (proj1 (compose_failures sample_PROMPT sample_time _) _ H);
      discriminate.
  - apply (proj2 (compose_failures sample_PROMPT sample_time _)
             "T"%char (lit "o")).
    reflexivity.
Defined.

(** ** The run of the script *)



(** X11.  A run asks the generation service at most once, and keeps
    the record of earlier calls: the calls after the run are those
    before it, or one more, which carries the composed prompt and the
    two image addresses. *)
Theorem at_most_one_generation_call
        (has_RequestException : bool) (float_str : float -> str)
        (net : network) (PROMPT local_time : str)
        (model : str -> list str -> result str) (w : World) :
  generation_calls
    (fst (main has_RequestException float_str net PROMPT local_time model w))
  = generation_calls w
  \/ exists data forecasts,
       get_weather_data has_RequestException float_str net LAT LON
       = Return (Some data)
       /\ compose PROMPT local_time data = Return forecasts
       /\ length attachments = 2
       /\ generation_calls
            (fst (main has_RequestException float_str net PROMPT local_time
                       model w))
          = (forecasts, attachments) :: generation_calls w.
Proof.
  unfold main.
  destruct (get_weather_data has_RequestException float_str net LAT LON)
    as [[data|]|e0] eqn:Hg; auto.
  destruct (compose PROMPT local_time data) as [forecasts|e1] eqn:Hc; auto.
  right. exists data, forecasts.
  split; [reflexivity | split; [exact Hc | split; [reflexivity|]]].
  destruct (model forecasts attachments) as [response|e2]; [|reflexivity].
  now destruct (extract response).
Qed.

(** X12.  The file is replaced, not extended: how a run ends does not
    depend on the world it starts in, and a run that ends without
    exception after a snapshot leaves the same record whatever the file
    held before. *)
Theorem run_replaces_file
        (has_RequestException : bool) (float_str : float -> str)
        (net : network) (PROMPT local_time : str)
        (model : str -> list str -> result str) (w w' : World)
        (data : WeatherSnapshot) :
  get_weather_data has_RequestException float_str net LAT LON
  = Return (Some data) ->
  snd (main has_RequestException float_str net PROMPT local_time model w)
  = Return tt ->
  snd (main has_RequestException float_str net PROMPT local_time model w')
  = Return tt
  /\ weather_report_json
       (fst (main has_RequestException float_str net PROMPT local_time
                  model w'))
     = weather_report_json
         (fst (main has_RequestException float_str net PROMPT local_time
                    model w))
  /\ exists r,
       weather_report_json
         (fst (main has_RequestException float_str net PROMPT local_time
                    model w))
       = Some r
       /\ forecast_data r = data /\ timestamp_ r = local_time.
Proof.
  unfold main. intros ->.
  destruct (compose PROMPT local_time data) as [forecasts|e1];
    [|discriminate].
  destruct (model forecasts attachments) as [response|e2]; [|discriminate].
  destruct (extract response) as [report code]. intros _.
  split; [reflexivity|]. split; [reflexivity|].
  eexists. split; [reflexivity|]. split; reflexivity.
Qed.

Lemma run_replaces_file_witness :
  snd (main true sample_float_str sample_net sample_PROMPT sample_time
            sample_model
            {| weather_report_json := Some earlier_record;
               generation_calls := [] |})
  = Return tt
  /\ weather_report_json
       (fst (main true sample_float_str sample_net sample_PROMPT
                  sample_time sample_model
                  {| weather_report_json := Some earlier_record;
                     generation_calls := [] |}))
     = weather_report_json
         (fst (main true sample_float_str sample_net sample_PROMPT
                    sample_time sample_model
                    {| weather_report_json := None;
                       generation_calls := [] |}))
  /\ exists r,
       weather_report_json
         (fst (main true sample_float_str sample_net sample_PROMPT
                    sample_time sample_model
                    {| weather_report_json := None;
                       generation_calls := [] |}))
       = Some r
       /\ forecast_data r
          = sample_snapshot (VFloat 53.6) (VInt 12) (VInt 60)
                            (VFloat 6.711) (VInt 180) (VStr (lit "Clear"))
       /\ timestamp_ r = sample_time.
Proof.
  apply (run_replaces_file true sample_float_str sample_net sample_PROMPT
           sample_time sample_model
           {| weather_report_json := None; generation_calls := [] |}
           {| weather_report_json := Some earlier_record;
              generation_calls := [] |}).
  - reflexivity.
  - reflexivity.
Defined.

(** ** The unit converters, further *)

Lemma celsius_Return_kind (v r : pyval) :
  _celsius_to_fahrenheit v = Return r ->
  (v = VNone /\ r = VNone) \/ (v <> VNone /\ exists f, r = VFloat f).
Proof.
  assert (Hdiv : forall z,
             (b <- (f <- int_true_divide z 5 ;; Return (VFloat f)) ;;
              py_add b (VInt 32)) = Return r ->
             exists f, r = VFloat f).
  { intros z H. apply bind_Return in H. destruct H as (b & Hb & H).
    apply bind_Return in Hb. destruct Hb as (q & _ & Hb).
    injection Hb as <-. vm_compute in H. injection H as <-. eauto. }
  destruct v as [|b|z|f|s|l|d];
    unfold _celsius_to_fahrenheit, py_mul, py_truediv;
    cbn [as_num bind]; try discriminate.
  - intros [= <-]. now left.
  - intros H. right. split; [discriminate|]. exact (Hdiv _ H).
  - intros H. right. split; [discriminate|]. exact (Hdiv _ H).
  - intros H. vm_compute in H. injection H as <-.
    right. split; [discriminate|]. eauto.
Qed.

Lemma mph_Return_kind (v r : pyval) :
  _ms_to_mph v = Return r ->
  (v = VNone /\ r = VNone) \/ (v <> VNone /\ exists f, r = VFloat f).
Proof.
  destruct v as [|b|z|f|s|l|d]; try discriminate.
  - intros [= <-]. now left.
  - intros H. right. split; [discriminate|].
    destruct b; vm_compute in H; injection H as <-; eauto.
  - unfold _ms_to_mph, py_mul. cbn [as_num]. intros H. bind_inv H.
    injection H as <-. right. split; [discriminate|]. eauto.
  - intros [= <-]. right. split; [discriminate|]. eauto.
Qed.



Lemma in_Z_range (lo z : Z) (n : nat) :
  (lo <= z < lo + Z.of_nat n)%Z -> In z (Z_range lo n).
Proof.
  intros H. unfold Z_range. apply in_map_iff.
  exists (Z.to_nat (z - lo)). split; [lia|]. apply in_seq. lia.
Qed.

Lemma close_to_inv (eps x : Q) (m : result pyval) :
  close_to eps x m = true ->
  exists f q, m = Return (VFloat f) /\ float_value f = Some q
              /\ (Qabs (q - x) <= eps)%Q.
Proof.
  unfold close_to. destruct m as [[| | |f| | |]|]; try discriminate.
  destruct (float_value f) as [q|] eqn:E; [|discriminate].
  intros H. exists f, q.
  split; [reflexivity | split; [exact E | now apply Qle_bool_iff]].
Qed.

(** X14.  On every integer Celsius reading from -273 to 1000 the
    converter returns a [float] within 1e-12 of the exact value
    [9 z / 5 + 32]. *)
Theorem celsius_to_fahrenheit_accuracy (z : Z) :
  (-273 <= z <= 1000)%Z ->
  exists f q,
    _celsius_to_fahrenheit (VInt z) = Return (VFloat f)
    /\ float_value f = Some q
    /\ (Qabs (q - exact_fahrenheit z) <= 1 # 1000000000000)%Q.
Proof.
  intros H. apply close_to_inv.
  assert (Hall : forallb (fun z => close_to (1 # 1000000000000)
                                     (exact_fahrenheit z)
                                     (_celsius_to_fahrenheit (VInt z)))
                         (Z_range (-273) 1274) = true)
    by (vm_compute; reflexivity).
  rewrite forallb_forall in Hall. apply Hall. apply in_Z_range. lia.
Qed.

Lemma celsius_to_fahrenheit_accuracy_witness :
  exists f q,
    _celsius_to_fahrenheit (VInt (-40)) = Return (VFloat f)
    /\ float_value f = Some q
    /\ (Qabs (q - exact_fahrenheit (-40)) <= 1 # 1000000000000)%Q.
Proof.
  apply (celsius_to_fahrenheit_accuracy (-40)). lia.
Defined.

(** X15.  On every integer wind speed from 0 to 200 metres per second
    the converter returns a [float] within 1e-12 of [2.237 z]. *)
Theorem ms_to_mph_accuracy (z : Z) :
  (0 <= z <= 200)%Z ->
  exists f q,
    _ms_to_mph (VInt z) = Return (VFloat f)
    /\ float_value f = Some q
    /\ (Qabs (q - exact_mph z) <= 1 # 1000000000000)%Q.
Proof.
  intros H. apply close_to_inv.
  assert (Hall : forallb (fun z => close_to (1 # 1000000000000)
                                     (exact_mph z) (_ms_to_mph (VInt z)))
                         (Z_range 0 201) = true)
    by (vm_compute; reflexivity).
  rewrite forallb_forall in Hall. apply Hall. apply in_Z_range. lia.
Qed.

Lemma ms_to_mph_accuracy_witness :
  exists f q,
    _ms_to_mph (VInt 7) = Return (VFloat f)
    /\ float_value f = Some q
    /\ (Qabs (q - exact_mph 7) <= 1 # 1000000000000)%Q.
Proof.
  apply (ms_to_mph_accuracy 7). lia.
Defined.

(** ** The client, further *)

Lemma raise_for_status_Return (r : response) (u : unit) :
  raise_for_status r = Return u -> status_ok r.
Proof.
  unfold raise_for_status, status_ok.
  destruct ((200 <=? status_code r)%Z && (status_code r <? 300)%Z) eqn:E;
    [|discriminate].
  intros _. apply andb_true_iff in E. lia.
Qed.

Lemma py_add_suffix_inv (v a : pyval) (s : str) :
  py_add v (VStr s) = Return a ->
  exists x, v = VStr x /\ a = VStr (x ++ s).
Proof.
  destruct v; simpl; try discriminate.
  intros [= <-]. eauto.
Qed.

(** Puts together two hypotheses that give the value of one expression. *)
Ltac same_returns :=
  repeat match goal with
         | H1 : ?x = Return ?a, H2 : ?x = Return ?b |- _ =>
             let E := fresh in
             assert (E : a = b) by congruence;
             first [ subst b | subst a | injection E as -> ]; clear H2
         end.

Lemma requests_inv (float_str : float -> str) (net : network)
      (lat lon : float) (pd fd od : pyval) :
  requests float_str net lat lon = Return (pd, fd, od) ->
  exists r0 r1 r2 r3 pp fu su sd fs f0 sid,
    net 0 (point_url float_str lat lon) = Responded r0
    /\ json_body r0 = Some pd
    /\ getitem pd "properties" = Return pp
    /\ getitem pp "forecast" = Return (VStr fu)
    /\ getitem pp "observationStations" = Return (VStr su)
    /\ net 1 fu = Responded r1
    /\ json_body r1 = Some fd
    /\ net 2 su = Responded r2
    /\ json_body r2 = Some sd
    /\ getitem sd "features" = Return fs
    /\ getitem0 fs = Return f0
    /\ getitem f0 "id" = Return (VStr sid)
    /\ net 3 (sid ++ lit "/observations/latest") = Responded r3
    /\ json_body r3 = Some od
    /\ Forall status_ok [r0; r1; r2; r3].
Proof.
  unfold requests. intros H. bind_inv H. injection H as <- <- <-.
  repeat match goal with
         | E : httpx_get _ _ _ = Return _ |- _ =>
             apply httpx_get_Return in E;
             let url := fresh "url" in
             let Hu := fresh "Hu" in
             destruct E as (url & Hu & E);
             first [ match type of Hu with
                     | VStr ?x = VStr _ =>
                         assert (url = x) by congruence; subst url; clear Hu
                     end
                   | subst ]
         | E : json _ = Return _ |- _ => apply json_Return in E
         | E : raise_for_status _ = Return _ |- _ =>
             apply raise_for_status_Return in E
         | E : py_add _ (VStr _) = Return _ |- _ =>
             apply py_add_suffix_inv in E;
             let sid := fresh "sid" in
             let Hs := fresh "Hs" in
             destruct E as (sid & -> & Hs); injection Hs as ->
         end.
  same_returns.
  do 11 eexists. fold (point_url float_str lat lon) in *.
  repeat (split; [eassumption|]).
  repeat (apply Forall_cons; [assumption|]). apply Forall_nil.
Qed.

(** X16.  A snapshot is built from four answers only, each with a
    status in 2xx and a JSON body, asked for in a chain: the point of
    the coordinates; the forecast and the station list at the addresses
    the point gives; and the latest observation of the first station of
    the list, at its [id] followed by ["/observations/latest"]. *)
Theorem snapshot_comes_from_request_chain
        (hre : bool) (float_str : float -> str) (net : network)
        (lat lon : float) (snap : WeatherSnapshot) :
  get_weather_data hre float_str net lat lon = Return (Some snap) ->
  exists pd fd od r0 r1 r2 r3 pp fu su sd fs f0 sid,
    net 0 (point_url float_str lat lon) = Responded r0
    /\ json_body r0 = Some pd
    /\ getitem pd "properties" = Return pp
    /\ getitem pp "forecast" = Return (VStr fu)
    /\ getitem pp "observationStations" = Return (VStr su)
    /\ net 1 fu = Responded r1
    /\ json_body r1 = Some fd
    /\ net 2 su = Responded r2
    /\ json_body r2 = Some sd
    /\ getitem sd "features" = Return fs
    /\ getitem0 fs = Return f0
    /\ getitem f0 "id" = Return (VStr sid)
    /\ net 3 (sid ++ lit "/observations/latest") = Responded r3
    /\ json_body r3 = Some od
    /\ Forall status_ok [r0; r1; r2; r3]
    /\ format_current_conditions od = Return (current_conditions snap)
    /\ format_forecast fd = Return (forecast snap).
Proof.
  intros H.
  destruct (get_weather_data_success _ _ _ _ _ _ H)
    as (pd & fd & od & loc & cur & Hr & _ & Hc & Hf & ->).
  destruct (requests_inv _ _ _ _ _ _ _ Hr)
    as (r0 & r1 & r2 & r3 & pp & fu & su & sd & fs & f0 & sid & Hchain).
  exists pd, fd, od, r0, r1, r2, r3, pp, fu, su, sd, fs, f0, sid.
  simpl. intuition.
Qed.

Lemma snapshot_comes_from_request_chain_witness :
  exists pd fd od r0 r1 r2 r3 pp fu su sd fs f0 sid,
    sample_net 0 (point_url sample_float_str LAT LON) = Responded r0
    /\ json_body r0 = Some pd
    /\ getitem pd "properties" = Return pp
    /\ getitem pp "forecast" = Return (VStr fu)
    /\ getitem pp "observationStations" = Return (VStr su)
    /\ sample_net 1 fu = Responded r1
    /\ json_body r1 = Some fd
    /\ sample_net 2 su = Responded r2
    /\ json_body r2 = Some sd
    /\ getitem sd "features" = Return fs
    /\ getitem0 fs = Return f0
    /\ getitem f0 "id" = Return (VStr sid)
    /\ sample_net 3 (sid ++ lit "/observations/latest") = Responded r3
    /\ json_body r3 = Some od
    /\ Forall status_ok [r0; r1; r2; r3]
    /\ format_current_conditions od
       = Return (current_conditions
                   (sample_snapshot (VFloat 53.6) (VInt 12) (VInt 60)
                      (VFloat 6.711) (VInt 180) (VStr (lit "Clear"))))
    /\ format_forecast fd
       = Return (forecast
                   (sample_snapshot (VFloat 53.6) (VInt 12) (VInt 60)
                      (VFloat 6.711) (VInt 180) (VStr (lit "Clear")))).
Proof.
  apply (snapshot_comes_from_request_chain true sample_float_str sample_net
           LAT LON).
  reflexivity.
Defined.

Lemma format_location_inv (pd : pyval) (lat lon : float) (loc : Location) :
  format_location pd lat lon = Return loc ->
  latitude loc = lat /\ longitude loc = lon.
Proof.
  unfold format_location. intros H. bind_inv H. injection H as <-.
  now split.
Qed.

Lemma format_current_conditions_inv (od : pyval) (cur : CurrentConditions) :
  format_current_conditions od = Return cur ->
  _celsius_to_fahrenheit (temperature_c cur) = Return (temperature_f cur)
  /\ exists o w wv,
       getitem od "properties" = Return o
       /\ getitem o "windSpeed" = Return w
       /\ getitem w "value" = Return wv
       /\ _ms_to_mph wv = Return (wind_speed_mph cur).
Proof.
  unfold format_current_conditions. intros H. bind_inv H.
  injection H as <-. same_returns. simpl. split; [assumption|].
  do 3 eexists. repeat (split; [eassumption|]). eassumption.
Qed.

(** X17.  In every snapshot the coordinates are those the fetch was
    asked for, the Fahrenheit temperature is the converted Celsius
    temperature of the same snapshot, so that each is [None] exactly
    when the other is, and the Fahrenheit temperature and the wind speed
    are [None] or a [float]. *)
Theorem snapshot_invariants
        (hre : bool) (float_str : float -> str) (net : network)
        (lat lon : float) (snap : WeatherSnapshot) :
  get_weather_data hre float_str net lat lon = Return (Some snap) ->
  latitude (location snap) = lat
  /\ longitude (location snap) = lon
  /\ _celsius_to_fahrenheit (temperature_c (current_conditions snap))
     = Return (temperature_f (current_conditions snap))
  /\ (temperature_f (current_conditions snap) = VNone
      <-> temperature_c (current_conditions snap) = VNone)
  /\ (temperature_f (current_conditions snap) = VNone
      \/ exists f, temperature_f (current_conditions snap) = VFloat f)
  /\ (wind_speed_mph (current_conditions snap) = VNone
      \/ exists f, wind_speed_mph (current_conditions snap) = VFloat f).
Proof.
  intros H.
  destruct (get_weather_data_success _ _ _ _ _ _ H)
    as (pd & fd & od & loc & cur & _ & Hl & Hc & _ & ->).
  destruct (format_location_inv _ _ _ _ Hl) as [Hlat Hlon].
  destruct (format_current_conditions_inv _ _ Hc)
    as (Ht & o & w & wv & _ & _ & _ & Hw).
  simpl. split; [exact Hlat | split; [exact Hlon | split; [exact Ht|]]].
  destruct (celsius_Return_kind _ _ Ht) as [[Hc0 Hf0]|[Hc0 [f Hf0]]];
    destruct (mph_Return_kind _ _ Hw) as [[_ Hw0]|[_ [g Hw0]]];
    rewrite Hf0, Hw0; repeat split; eauto; try congruence;
    intros; congruence.
Qed.

Lemma snapshot_invariants_witness :
  latitude (location (sample_snapshot VNone VNone VNone VNone VNone VNone))
  = LAT
  /\ longitude
       (location (sample_snapshot VNone VNone VNone VNone VNone VNone))
     = LON
  /\ _celsius_to_fahrenheit
       (temperature_c
          (current_conditions
             (sample_snapshot VNone VNone VNone VNone VNone VNone)))
     = Return (temperature_f
                 (current_conditions
                    (sample_snapshot VNone VNone VNone VNone VNone VNone)))
  /\ (temperature_f
        (current_conditions
           (sample_snapshot VNone VNone VNone VNone VNone VNone)) = VNone
      <-> temperature_c
            (current_conditions
               (sample_snapshot VNone VNone VNone VNone VNone VNone))
          = VNone)
  /\ (temperature_f
        (current_conditions
           (sample_snapshot VNone VNone VNone VNone VNone VNone)) = VNone
      \/ exists f,
           temperature_f
             (current_conditions
                (sample_snapshot VNone VNone VNone VNone VNone VNone))
           = VFloat f)
  /\ (wind_speed_mph
        (current_conditions
           (sample_snapshot VNone VNone VNone VNone VNone VNone)) = VNone
      \/ exists f,
           wind_speed_mph
             (current_conditions
                (sample_snapshot VNone VNone VNone VNone VNone VNone))
           = VFloat f).
Proof.
  apply (snapshot_invariants true sample_float_str
           (net_with_observation
              (sample_observation VNone VNone VNone VNone VNone))
           LAT LON).
  reflexivity.
Defined.

Lemma httpx_get_agree (net net' : network) :
  agree_on_run net net' ->
  forall n u, n < 4 -> httpx_get net n u = httpx_get net' n u.
Proof.
  intros H n u Hn. unfold httpx_get. destruct u; try reflexivity.
  now rewrite (H n s Hn).
Qed.

Ltac agree_step Hag :=
  lazymatch goal with
  | |- bind (httpx_get ?net ?n ?u) _ = bind (httpx_get ?net' ?n ?u) _ =>
      rewrite (httpx_get_agree net net' Hag n u) by lia;
      destruct (httpx_get net' n u); cbn [bind]; [|reflexivity]
  | |- bind ?m _ = bind ?m _ => destruct m; cbn [bind]; [|reflexivity]
  | |- _ => reflexivity
  end.

Lemma requests_agree (float_str : float -> str) (net net' : network)
      (lat lon : float) :
  agree_on_run net net' ->
  requests float_str net lat lon = requests float_str net' lat lon.
Proof.
  intros Hag. unfold requests. cbv zeta. repeat agree_step Hag.
Qed.

(** X18.  A fetch makes no fifth request, and asks each of its four
    once: two networks that give the same answers to the first four
    requests give the same result. *)
Theorem fetch_reads_four_answers
        (hre : bool) (float_str : float -> str) (net net' : network)
        (lat lon : float) :
  agree_on_run net net' ->
  get_weather_data hre float_str net lat lon
  = get_weather_data hre float_str net' lat lon.
Proof.
  intros Hag. unfold get_weather_data, fetch_body.
  now rewrite (requests_agree float_str net net' lat lon Hag).
Qed.

Lemma fetch_reads_four_answers_witness :
  get_weather_data true sample_float_str sample_net LAT LON
  = get_weather_data true sample_float_str
      (fun n u => if n <? 4 then sample_net n u else ConnectionFailed)
      LAT LON.
Proof.
  apply (fetch_reads_four_answers true sample_float_str sample_net
           (fun n u => if n <? 4 then sample_net n u else ConnectionFailed)
           LAT LON).
  intros n u Hn. apply Nat.ltb_lt in Hn. now rewrite Hn.
Defined.

Lemma bad_status_raises (r : response) :
  ~ status_ok r -> raise_for_status r = Raise HTTPStatusError.
Proof.
  unfold status_ok, raise_for_status. intros H.
  destruct ((200 <=? status_code r)%Z && (status_code r <? 300)%Z) eqn:E;
    [|reflexivity].
  apply andb_true_iff in E. exfalso. apply H. lia.
Qed.

(** X19.  When the first request fails (no answer, a status outside
    2xx whatever the body holds, or a body that is not JSON), the fetch
    gives no snapshot, whatever the other answers are; in the program as
    it runs it ends with an [AttributeError]. *)
Theorem first_request_failure
        (hre : bool) (float_str : float -> str) (net : network)
        (lat lon : float) :
  first_request_fails float_str net lat lon ->
  (forall snap,
      get_weather_data hre float_str net lat lon <> Return (Some snap))
  /\ get_weather_data false float_str net lat lon = Raise AttributeError.
Proof.
  intros H.
  assert (Hb : exists e, fetch_body float_str net lat lon = Raise e).
  { unfold fetch_body, requests. cbv zeta.
    fold (point_url float_str lat lon). unfold httpx_get at 1.
    destruct H as [H | (r & H & Hr)]; rewrite H; cbn [bind].
    - eauto.
    - destruct Hr as [Hr|Hr].
      + rewrite (bad_status_raises r Hr). cbn [bind]. eauto.
      + unfold raise_for_status, json. rewrite Hr.
        destruct ((200 <=? status_code r)%Z && (status_code r <? 300)%Z);
          cbn [bind]; eauto. }
  destruct Hb as (e & Hb). unfold get_weather_data. rewrite Hb. split.
  - intros snap. apply handlers_no_snapshot.
  - reflexivity.
Qed.

Lemma first_request_failure_witness :
  (forall snap,
      get_weather_data false sample_float_str
        (serve (Responded {| status_code := 500;
                             json_body := Some sample_point_data |})
               (ok sample_forecast_data)
               (ok (sample_stations_data [sample_station]))
               (ok (sample_observation VNone VNone VNone VNone VNone)))
        LAT LON
      <> Return (Some snap))
  /\ get_weather_data false sample_float_str
       (serve (Responded {| status_code := 500;
                            json_body := Some sample_point_data |})
              (ok sample_forecast_data)
              (ok (sample_stations_data [sample_station]))
              (ok (sample_observation VNone VNone VNone VNone VNone)))
       LAT LON
     = Raise AttributeError.
Proof.
  apply (first_request_failure false sample_float_str
           (serve (Responded {| status_code := 500;
                                json_body := Some sample_point_data |})
                  (ok sample_forecast_data)
                  (ok (sample_stations_data [sample_station]))
                  (ok (sample_observation VNone VNone VNone VNone VNone)))
           LAT LON).
  right. eexists. split; [reflexivity|]. left.
  unfold status_ok. simpl. lia.
Defined.

(** X20.  Without the handler class the fetch never returns [None]: it
    returns a snapshot, or ends with an [AttributeError] whatever the
    [try] block raised. *)
Theorem no_None_without_handler_class
        (float_str : float -> str) (net : network) (lat lon : float) :
  (exists snap,
      get_weather_data false float_str net lat lon = Return (Some snap))
  \/ (get_weather_data false float_str net lat lon = Raise AttributeError
      /\ exists e, fetch_body float_str net lat lon = Raise e).
Proof.
  unfold get_weather_data.
  destruct (fetch_body float_str net lat lon) as [snap|e].
  - left. now exists snap.
  - right. split; [reflexivity | now exists e].
Qed.

Lemma good_status_returns (r : response) :
  status_ok r -> raise_for_status r = Return tt.
Proof.
  unfold status_ok, raise_for_status. intros H.
  replace ((200 <=? status_code r)%Z && (status_code r <? 300)%Z) with true;
    [reflexivity|].
  symmetry. apply andb_true_iff. split; [apply Z.leb_le | apply Z.ltb_lt]; lia.
Qed.

Lemma json_returns (r : response) (v : pyval) :
  json_body r = Some v -> json r = Return v.
Proof.
  unfold json. now intros ->.
Qed.

(** X21.  A point answer without the key ["forecast"], or with it and
    without the key ["observationStations"], ends the fetch before the
    second request: [None] with the handler class in place, an
    [AttributeError] without it, whatever the other answers are. *)
Theorem missing_address_aborts
        (hre : bool) (float_str : float -> str) (net : network)
        (lat lon : float) (pp : pyval) :
  point_answered float_str net lat lon pp ->
  (getitem pp "forecast" = Raise KeyError
   \/ (exists fu, getitem pp "forecast" = Return fu)
      /\ getitem pp "observationStations" = Raise KeyError) ->
  get_weather_data hre float_str net lat lon
  = if hre then Return None else Raise AttributeError.
Proof.
  intros (r0 & pd & Hn & Hs & Hj & Hp) H.
  unfold get_weather_data, fetch_body, requests. cbv zeta.
  fold (point_url float_str lat lon). unfold httpx_get at 1.
  rewrite Hn. cbn [bind].
  rewrite (good_status_returns r0 Hs). cbn [bind].
  rewrite (json_returns r0 pd Hj). cbn [bind]. rewrite Hp. cbn [bind].
  destruct H as [H | [(fu & Hf) H]].
  - rewrite H. cbn [bind]. now destruct hre.
  - rewrite Hf. cbn [bind]. rewrite H. cbn [bind]. now destruct hre.
Qed.

Lemma missing_address_aborts_witness :
  get_weather_data true sample_float_str
    (serve (ok (obj [("properties"%string,
                      obj [("forecast"%string,
                            VStr (lit "https://api.weather.gov/f"))])]))
           (ok sample_forecast_data)
           (ok (sample_stations_data [sample_station]))
           (ok (sample_observation VNone VNone VNone VNone VNone)))
    LAT LON
  = Return None.
Proof.
  apply (missing_address_aborts true sample_float_str _ LAT LON
           (obj [("forecast"%string,
                  VStr (lit "https://api.weather.gov/f"))])).
  - eexists. eexists. split; [reflexivity|].
    split; [unfold status_ok; simpl; lia|]. split; reflexivity.
  - right. split; [eexists; reflexivity | reflexivity].
Defined.

(** X22.  A station list without features ends the fetch before the
    fourth request: [None] with the handler class in place, an
    [AttributeError] without it, whatever the latest observation would
    have been. *)
Theorem empty_station_list_aborts
        (hre : bool) (float_str : float -> str) (net : network)
        (lat lon : float) :
  stations_answered float_str net lat lon (VList []) ->
  get_weather_data hre float_str net lat lon
  = if hre then Return None else Raise AttributeError.
Proof.
  intros (pp & fu & su & r1 & fd & r2 & sd
          & (r0 & pd & Hn & Hs & Hj & Hp)
          & Hf & Hsu & Hn1 & Hs1 & Hj1 & Hn2 & Hs2 & Hj2 & Hfs).
  unfold get_weather_data, fetch_body, requests. cbv zeta.
  fold (point_url float_str lat lon). unfold httpx_get.
  rewrite Hn. cbn [bind].
  rewrite (good_status_returns r0 Hs). cbn [bind].
  rewrite (json_returns r0 pd Hj). cbn [bind]. rewrite Hp. cbn [bind].
  rewrite Hf. cbn [bind]. rewrite Hsu. cbn [bind].
  rewrite Hn1. cbn [bind].
  rewrite (good_status_returns r1 Hs1). cbn [bind].
  rewrite (json_returns r1 fd Hj1). cbn [bind].
  rewrite Hn2. cbn [bind].
  rewrite (good_status_returns r2 Hs2). cbn [bind].
  rewrite (json_returns r2 sd Hj2). cbn [bind].
  rewrite Hfs. cbn [bind getitem0]. now destruct hre.
Qed.

Lemma empty_station_list_aborts_witness :
  get_weather_data true sample_float_str net_without_station LAT LON
  = Return None.
Proof.
  apply (empty_station_list_aborts true sample_float_str
           net_without_station LAT LON).
  do 7 eexists. split.
  - eexists. eexists. split; [reflexivity|].
    split; [unfold status_ok; simpl; lia|]. split; reflexivity.
  - split; [reflexivity|]. split; [reflexivity|].
    split; [reflexivity|]. split; [unfold status_ok; simpl; lia|].
    split; [reflexivity|]. split; [reflexivity|].
    split; [unfold status_ok; simpl; lia|]. split; reflexivity.
Defined.

Set Warnings "inexact-float".
